(** * Road Safety Analytics: the data pipeline of the two dashboards

    A shallow embedding of [milestone4.py] and [app.py]: ingestion
    ([load_data]), the sidebar option lists, the compound filter
    ([df_filtered]), the key metrics and the map sample.

    A pandas column is a list of nullable cells ([None] is NaN / NaT), a
    DataFrame a list of rows in source order.  A Python exception is the
    [Raise] branch of [Result]. *)

From Stdlib Require Import ZArith QArith String Ascii.
From stdpp Require Import base list gmap strings sorting.

(** ** The pandas and Python operations the scripts call *)

Module Pandas.

Inductive exn : Type :=
  | KeyError
  | TypeError
  | ValueError
  | FileNotFoundError
  | OtherError.

Inductive Result (A : Type) : Type :=
  | Ok (a : A)
  | Raise (e : exn).
Arguments Ok {A} a.
Arguments Raise {A} e.

#[export] Instance Result_ret : MRet Result := λ A a, Ok a.
#[export] Instance Result_bind : MBind Result := λ A B f m,
  match m with
  | Ok a => f a
  | Raise e => Raise e
  end.
#[export] Instance Result_fmap : FMap Result := λ A B f m,
  match m with
  | Ok a => Ok (f a)
  | Raise e => Raise e
  end.

(** float64 cells: a finite value is a rational, NaN is [None]. *)
Definition float : Type := Q.

(** [isna()] on one cell. *)
Definition is_null {A} (x : option A) : bool :=
  match x with
  | None => true
  | Some _ => false
  end.

(** [Series.dropna()]: the non-null cells, in order. *)
Definition dropna {A} (s : list (option A)) : list A := omap id s.

(** [DataFrame.dropna(subset=...)]: keep the rows with no null cell in any
    column of [subset]. *)
Definition dropna_subset {Row Col} (isna : Col → Row → bool)
    (subset : list Col) (df : list Row) : list Row :=
  filter (λ r, forallb (λ c, negb (isna c r)) subset = true) df.

(** [df[mask]]: boolean-mask row selection. *)
Definition loc {Row} (mask : Row → bool) (df : list Row) : list Row :=
  filter (λ r, mask r = true) df.

(** [column == value]: a null cell compares unequal. *)
Definition eq_scalar (x : option string) (v : string) : bool :=
  match x with
  | Some s => bool_decide (s = v)
  | None => false
  end.

(** [column >= bound], [column <= bound]: any comparison with NaN is
    False. *)
Definition ge_scalar (x : option Z) (bound : Z) : bool :=
  match x with
  | Some h => (bound <=? h)%Z
  | None => false
  end.

Definition le_scalar (x : option Z) (bound : Z) : bool :=
  match x with
  | Some h => (h <=? bound)%Z
  | None => false
  end.

(** [column.isin(values)] for a list of strings. *)
Definition isin (x : option string) (values : list string) : bool :=
  match x with
  | Some s => bool_decide (s ∈ values)
  | None => false
  end.

(** [Series.unique()]: the distinct cells in order of first appearance
    (NaN included, once). *)
Fixpoint unique {A} `{EqDecision A} (s : list A) : list A :=
  match s with
  | [] => []
  | x :: s' => x :: filter (λ y, y ≠ x) (unique s')
  end.

(** Python compares [str] by code point; on UTF-8 bytes this is the
    lexicographic byte order of [String.leb]. *)
Definition str_le (s1 s2 : string) : Prop := String.leb s1 s2 = true.

#[export] Instance str_le_dec : RelDecision str_le.
Proof. intros s1 s2. unfold str_le. apply _. Defined.

(** [sorted(xs)] on cells that are strings or NaN: comparing a [str] with
    the float NaN raises TypeError; NaNs alone never reorder. *)
Definition sorted (xs : list (option string)) : Result (list (option string)) :=
  match dropna xs with
  | [] => Ok xs
  | strs =>
      if decide (None ∈ xs) then Raise TypeError
      else Ok (Some <$> merge_sort str_le strs)
  end.

(** [Series.value_counts()[v]] on the non-null cells. *)
Definition value_count (v : string) (vals : list string) : nat :=
  length (filter (λ y, y = v) vals).

(** [Series.mode()]: the most frequent non-null values, sorted ascending
    (for a categorical column by category code, and the categories made
    by [astype('category')] are in sorted order). *)
Definition mode (s : list (option string)) : list string :=
  let vals := dropna s in
  let uniq := unique vals in
  let top := max_list ((λ v, value_count v vals) <$> uniq) in
  merge_sort str_le (filter (λ v, value_count v vals = top) uniq).

(** [v] is a most frequent non-null value of the column [s]. *)
Definition most_frequent (v : string) (s : list (option string)) : Prop :=
  Some v ∈ s ∧
  ∀ v', value_count v' (dropna s) ≤ value_count v (dropna s).

(** [v] is the smallest of the most frequent values of [s]. *)
Definition least_most_frequent (v : string) (s : list (option string)) : Prop :=
  most_frequent v s ∧ ∀ v', most_frequent v' s → str_le v v'.

(** The tie-break rule in the words of the specification: the most
    frequent value, a tie going to the value met first in source order
    ([unique] lists the values in that order). *)
Definition spec_first_encountered_mode (s : list (option string))
    : option string :=
  let vals := dropna s in
  let uniq := unique vals in
  let top := max_list ((λ v, value_count v vals) <$> uniq) in
  head (filter (λ v, value_count v vals = top) uniq).

(** [series[0]] on a default RangeIndex. *)
Definition getitem0 {A} (s : list A) : Result A :=
  match s with
  | x :: _ => Ok x
  | [] => Raise KeyError
  end.

(** [Series.mean()]: nulls skipped, NaN when nothing is left. *)
Definition mean (s : list (option Z)) : option float :=
  match dropna s with
  | [] => None
  | vals => Some (Qmake (foldr Z.add 0%Z vals) (Pos.of_nat (length vals)))
  end.

(** Drawing [n] rows without replacement: each draw picks a position of the
    remaining pool from the next random number and removes it. *)
Fixpoint draw {A} (n : nat) (pool : list A) (rng : list nat) : list A :=
  match n with
  | 0 => []
  | S n' =>
      let i := hd 0 rng `mod` length pool in
      match pool !! i with
      | Some x => x :: draw n' (delete i pool) (tail rng)
      | None => []
      end
  end.

(** [DataFrame.sample(n)] (replace=False): more rows than the frame has
    is a ValueError. *)
Definition sample {A} (n : nat) (df : list A) (rng : list nat) : Result (list A) :=
  if decide (length df < n) then Raise ValueError else Ok (draw n df rng).

(** The part of the pandas datetime API the scripts use.
    [to_datetime] is [pd.to_datetime(column, errors='coerce')]: a cell it
    cannot parse becomes NaT, and the column keeps its length. *)
Class Datetime : Type := {
  Timestamp : Type;
  PyDate : Type;
  to_datetime : list (option string) → list (option Timestamp);
  to_datetime_length : ∀ col, length (to_datetime col) = length col;
  dt_hour : Timestamp → Z;
  dt_date : Timestamp → PyDate;
  dt_day_name : Timestamp → string
}.

End Pandas.

Export Pandas.

(** ** The load cache *)

Module CacheManager.

Section Cache.
Context {Key : Type} `{Countable Key} {Source Dataset : Type}.

(** The cached function: what ingestion yields for a key from the source
    as it is at the time of the call. *)
Variable ingestion : Source → Key → Result Dataset.

(** [entries] is the keyed store, [reads] the keys of the ingestion runs
    so far, latest first (the load counter of a key is its number of
    occurrences). *)
Record Cache : Type := {
  entries : gmap Key Dataset;
  reads : list Key
}.

Definition empty_cache : Cache := {| entries := ∅; reads := [] |}.

(** Modelled from the spec: the memoisation behind [@st.cache_data] is
    Streamlit's and not part of the repository, so [get_or_load] follows
    the Cache Manager contract: a hit returns the stored Dataset without
    reading the source; a miss runs ingestion, stores the Dataset it
    produced and returns it; a failed ingestion is surfaced and leaves
    nothing to store; nothing is ever evicted. *)
Definition get_or_load (src : Source) (k : Key) (c : Cache)
    : Result Dataset * Cache :=
  match entries c !! k with
  | Some d => (Ok d, c)
  | None =>
      match ingestion src k with
      | Ok d => (Ok d, {| entries := <[k:=d]> (entries c); reads := k :: reads c |})
      | Raise e => (Raise e, {| entries := entries c; reads := k :: reads c |})
      end
  end.

(** A sequence of requests, each with the source as it was at that time. *)
Definition serve (requests : list (Source * Key)) (c : Cache) : Cache :=
  foldl (λ c rq, (get_or_load rq.1 rq.2 c).2) c requests.

Definition load_count (k : Key) (c : Cache) : nat :=
  length (filter (λ k', k' = k) (reads c)).

End Cache.

End CacheManager.

(** ** milestone4.py *)

Module Milestone4.

(** The seven columns of [cols_to_use], as [read_csv] delivers them. *)
Inductive Column : Type :=
  | Severity_col
  | Start_Time_col
  | Start_Lat_col
  | Start_Lng_col
  | City_col
  | State_col
  | Weather_Condition_col.

Record RawRow : Type := {
  raw_Severity : option Z;
  raw_Start_Time : option string;
  raw_Start_Lat : option float;
  raw_Start_Lng : option float;
  raw_City : option string;
  raw_State : option string;
  raw_Weather_Condition : option string
}.

Definition isna (c : Column) (r : RawRow) : bool :=
  match c with
  | Severity_col => is_null (raw_Severity r)
  | Start_Time_col => is_null (raw_Start_Time r)
  | Start_Lat_col => is_null (raw_Start_Lat r)
  | Start_Lng_col => is_null (raw_Start_Lng r)
  | City_col => is_null (raw_City r)
  | State_col => is_null (raw_State r)
  | Weather_Condition_col => is_null (raw_Weather_Condition r)
  end.

(** [nrows=500000]: the first rows of the file, in source order. *)
Definition nrows : nat := N.to_nat 500000.

(** The literal cap of the map sample. *)
Definition sample_cap : nat := 1000.

Section Script.
Context `{Datetime}.

(** A row of [df] after feature engineering: [Start_Time] is now parsed,
    and [Hour], [Date], [Weekday] are added. *)
Record Accident : Type := {
  Severity : option Z;
  Start_Time : option Timestamp;
  Start_Lat : option float;
  Start_Lng : option float;
  City : option string;
  State : option string;
  Weather_Condition : option string;
  Hour : option Z;
  Date : option PyDate;
  Weekday : option string
}.

(** One row of the frame once the parsed column [t] is assigned. *)
Definition engineer (r : RawRow) (t : option Timestamp) : Accident := {|
  Severity := raw_Severity r;
  Start_Time := t;
  Start_Lat := raw_Start_Lat r;
  Start_Lng := raw_Start_Lng r;
  City := raw_City r;
  State := raw_State r;
  Weather_Condition := raw_Weather_Condition r;
  Hour := dt_hour <$> t;
  Date := dt_date <$> t;
  Weekday := dt_day_name <$> t
|}.

(** The frame right after [df.dropna(subset=['City', 'Start_Lat',
    'Start_Lng'])].  The conversion of text columns to categories before
    it changes no cell. *)
Definition dropped (csv : list RawRow) : list RawRow :=
  dropna_subset isna [City_col; Start_Lat_col; Start_Lng_col] (take nrows csv).

(** [load_data()] on the rows of the CSV file.  Reading the archive comes
    first; when it fails the script reports it and stops. *)
Definition load_data (csv : list RawRow) : list Accident :=
  let df := dropped csv in
  zip_with engineer df (to_datetime (raw_Start_Time <$> df)).

(** *** Sidebar *)

Definition state_list (df : list Accident) : Result (list (option string)) :=
  sorted (unique (State <$> df)).

Definition city_list (df : list Accident) (selected_state : string)
    : Result (list (option string)) :=
  sorted (unique (City <$> loc (λ r, eq_scalar (State r) selected_state) df)).

Definition weather_options (df : list Accident) : list string :=
  unique (dropna (Weather_Condition <$> df)).

(** What the sidebar offers.  [city_options] is [None] when no city
    widget is drawn ([selected_city = []]). *)
Record Sidebar : Type := {
  state_options : list (option string);
  city_options : option (list (option string));
  weather_opts : list string
}.

Definition sidebar (df : list Accident) (selected_state : string)
    : Result Sidebar :=
  states ← state_list df;
  cities ← (if decide (selected_state ≠ "All")
            then Some <$> city_list df selected_state
            else Ok None);
  Ok {| state_options := Some "All" :: states;
        city_options := cities;
        weather_opts := weather_options df |}.

(** *** Filters *)

Definition df_filtered (df : list Accident) (selected_state : string)
    (selected_city : list string) (min_hour max_hour : Z)
    (selected_weather : list string) : list Accident :=
  let d1 := if decide (selected_state ≠ "All")
            then loc (λ r, eq_scalar (State r) selected_state) df
            else df in
  let d2 := match selected_city with
            | [] => d1
            | _ => loc (λ r, isin (City r) selected_city) d1
            end in
  let d3 := loc (λ r, ge_scalar (Hour r) min_hour && le_scalar (Hour r) max_hour) d2 in
  match selected_weather with
  | [] => d3
  | _ => loc (λ r, isin (Weather_Condition r) selected_weather) d3
  end.

(** The four predicates of the filter, on one row. *)
Definition region_ok (selected_state : string) (r : Accident) : Prop :=
  selected_state = "All" ∨ State r = Some selected_state.

Definition locality_ok (selected_city : list string) (r : Accident) : Prop :=
  selected_city = [] ∨ ∃ c, City r = Some c ∧ c ∈ selected_city.

Definition hour_ok (min_hour max_hour : Z) (r : Accident) : Prop :=
  ∃ h, Hour r = Some h ∧ (min_hour ≤ h ≤ max_hour)%Z.

Definition weather_ok (selected_weather : list string) (r : Accident) : Prop :=
  selected_weather = [] ∨
  ∃ w, Weather_Condition r = Some w ∧ w ∈ selected_weather.

(** The block "4. APPLY FILTERS" as a step of the script: no statement of
    it raises. *)
Definition apply_filters (df : list Accident) (selected_state : string)
    (selected_city : list string) (min_hour max_hour : Z)
    (selected_weather : list string) : Result (list Accident) :=
  Ok (df_filtered df selected_state selected_city min_hour max_hour
        selected_weather).

(** *** Key metrics *)

Inductive KeyMetrics : Type :=
  | Metrics (total : nat) (most_frequent_city : string)
      (avg_severity : option float) (top_weather : option string)
  | NoData (total : nat).

(** The block "5. KEY METRICS".  [NoData] is the warning followed by
    [st.stop()].  The average is kept as a number; the page prints it
    with two decimals. *)
Definition key_metrics (view : list Accident) : Result KeyMetrics :=
  let total := length view in
  match view with
  | _ :: _ =>
      city ← getitem0 (mode (City <$> view));
      let avg := mean (Severity <$> view) in
      weather ← match mode (Weather_Condition <$> view) with
                | [] => Ok None
                | m => Some <$> getitem0 m
                end;
      Ok (Metrics total city avg weather)
  | [] => Ok (NoData total)
  end.

(** *** Map *)

(** The markers of the map: a sample of at most [cap] rows, drawn only
    when the view is not empty. *)
Definition geo_sample (cap : nat) (view : list Accident) (rng : list nat)
    : Result (list Accident) :=
  match view with
  | _ :: _ => sample (Nat.min cap (length view)) view rng
  | [] => Ok []
  end.

Definition marker_data : list Accident → list nat → Result (list Accident) :=
  geo_sample sample_cap.

(** *** The page as a whole *)

(** The four tests of [df_filtered] on one row, as a single mask. *)
Definition criteria_mask (selected_state : string)
    (selected_city : list string) (min_hour max_hour : Z)
    (selected_weather : list string) (r : Accident) : bool :=
  (bool_decide (selected_state = "All") || eq_scalar (State r) selected_state)
  && match selected_city with
     | [] => true
     | _ => isin (City r) selected_city
     end
  && (ge_scalar (Hour r) min_hour && le_scalar (Hour r) max_hour)
  && match selected_weather with
     | [] => true
     | _ => isin (Weather_Condition r) selected_weather
     end.

(** "TAB 3: DATA": [df_filtered.head(100)]. *)
Definition preview (view : list Accident) : list Accident := take 100 view.

(** What one run of the script puts on the page: either the warning
    after which [st.stop()] ends the run, or the metrics, the markers of
    the map and the rows of the raw-data tab. *)
Inductive Page : Type :=
  | Stopped (total : nat)
  | Rendered (metrics : KeyMetrics) (markers : list Accident)
      (rows : list Accident).

(** One run of the script on the loaded frame, for the values the
    widgets return and the random source of the sample.  The charts draw
    from [df_filtered] and add no step that this model tracks. *)
Definition run (df : list Accident) (selected_state : string)
    (selected_city : list string) (min_hour max_hour : Z)
    (selected_weather : list string) (rng : list nat) : Result Page :=
  _ ← sidebar df selected_state;
  view ← apply_filters df selected_state selected_city min_hour max_hour
           selected_weather;
  metrics ← key_metrics view;
  match metrics with
  | NoData total => Ok (Stopped total)
  | Metrics _ _ _ _ =>
      markers ← marker_data view rng;
      Ok (Rendered metrics markers (preview view))
  end.

(** [@st.cache_data def load_data()]: the function has no argument, so
    the cache has the single key [()]. *)
Definition cached_load_data (file : Result (list RawRow))
    (c : CacheManager.Cache (Key := unit) (Dataset := list Accident))
    : Result (list Accident) * CacheManager.Cache :=
  CacheManager.get_or_load (λ src _, load_data <$> src) file () c.

End Script.

End Milestone4.

(** ** app.py *)

Module App.

(** The columns of the full CSV file that the script touches. *)
Inductive Column : Type :=
  | Severity_col
  | Start_Time_col
  | Start_Lat_col
  | Start_Lng_col
  | Street_col
  | City_col
  | State_col
  | Zipcode_col
  | Weather_Condition_col.

Record RawRow : Type := {
  raw_Severity : option Z;
  raw_Start_Time : option string;
  raw_Start_Lat : option float;
  raw_Start_Lng : option float;
  raw_Street : option string;
  raw_City : option string;
  raw_State : option string;
  raw_Zipcode : option string;
  raw_Weather_Condition : option string
}.

Definition isna (c : Column) (r : RawRow) : bool :=
  match c with
  | Severity_col => is_null (raw_Severity r)
  | Start_Time_col => is_null (raw_Start_Time r)
  | Start_Lat_col => is_null (raw_Start_Lat r)
  | Start_Lng_col => is_null (raw_Start_Lng r)
  | Street_col => is_null (raw_Street r)
  | City_col => is_null (raw_City r)
  | State_col => is_null (raw_State r)
  | Zipcode_col => is_null (raw_Zipcode r)
  | Weather_Condition_col => is_null (raw_Weather_Condition r)
  end.

(** [nrows=50000]. *)
Definition nrows : nat := N.to_nat 50000.

Section Script.
Context `{Datetime}.

Record Accident : Type := {
  Severity : option Z;
  Start_Time : option Timestamp;
  Start_Lat : option float;
  Start_Lng : option float;
  Street : option string;
  City : option string;
  State : option string;
  Zipcode : option string;
  Weather_Condition : option string;
  Hour : option Z;
  Weekday : option string
}.

Definition engineer (r : RawRow) (t : option Timestamp) : Accident := {|
  Severity := raw_Severity r;
  Start_Time := t;
  Start_Lat := raw_Start_Lat r;
  Start_Lng := raw_Start_Lng r;
  Street := raw_Street r;
  City := raw_City r;
  State := raw_State r;
  Zipcode := raw_Zipcode r;
  Weather_Condition := raw_Weather_Condition r;
  Hour := dt_hour <$> t;
  Weekday := dt_day_name <$> t
|}.

(** The frame after [df.dropna(subset=['Street', 'City', 'Zipcode',
    'Start_Lat', 'Start_Lng'])]; the dropped columns [End_Lat], [End_Lng]
    are not read again. *)
Definition dropped (csv : list RawRow) : list RawRow :=
  dropna_subset isna
    [Street_col; City_col; Zipcode_col; Start_Lat_col; Start_Lng_col]
    (take nrows csv).

Definition load_data (csv : list RawRow) : list Accident :=
  let df := dropped csv in
  zip_with engineer df (to_datetime (raw_Start_Time <$> df)).

(** The states offered by the selector, after "All":
    [sorted(df['State'].unique().tolist())]. *)
Definition state_list (df : list Accident) : Result (list (option string)) :=
  sorted (unique (State <$> df)).

(** "3. SIDEBAR CONTROLS": the state is the only filter. *)
Definition df_filtered (df : list Accident) (selected_state : string)
    : list Accident :=
  if decide (selected_state ≠ "All")
  then loc (λ r, eq_scalar (State r) selected_state) df
  else df.

Record KeyMetrics : Type := {
  total : nat;
  most_frequent_city : string;
  avg_severity : option float
}.

(** "4. KEY METRICS": computed without looking at [df_filtered.empty]. *)
Definition key_metrics (view : list Accident) : Result KeyMetrics :=
  city ← getitem0 (mode (City <$> view));
  Ok {| total := length view;
        most_frequent_city := city;
        avg_severity := mean (Severity <$> view) |}.

(** The points of the map; on an empty view a warning is shown and
    nothing is drawn. *)
Definition sample_map (view : list Accident) (rng : list nat)
    : Result (list Accident) :=
  match view with
  | _ :: _ => sample (Nat.min 1000 (length view)) view rng
  | [] => Ok []
  end.

Definition cached_load_data (file : Result (list RawRow))
    (c : CacheManager.Cache (Key := unit) (Dataset := list Accident))
    : Result (list Accident) * CacheManager.Cache :=
  CacheManager.get_or_load (λ src _, load_data <$> src) file () c.

End Script.

End App.

(** ** Sample data for the worked examples *)

Module Fixture.

Definition digit (a : ascii) : option Z :=
  let n := (Z.of_N (N_of_ascii a) - 48)%Z in
  if decide (0 ≤ n ≤ 9)%Z then Some n else None.

(** The hour of a text of the shape [YYYY-MM-DD HH:MM:SS]. *)
Definition parse_hour (s : string) : option Z :=
  a ← String.get 11 s;
  b ← String.get 12 s;
  x ← digit a;
  y ← digit b;
  let h := (10 * x + y)%Z in
  if decide (h < 24)%Z then Some h else None.

(** A small stand-in for the datetime interface: a timestamp is its hour. *)
Definition clock : Datetime := {|
  Timestamp := Z;
  PyDate := unit;
  to_datetime := fmap (λ cell, cell ≫= parse_hour);
  to_datetime_length := length_fmap _;
  dt_hour := id;
  dt_date := λ _, ();
  dt_day_name := λ _, "Monday"
|}.

Definition row (severity : Z) (start_time : string) (city : string)
    (state : option string) (weather : option string) : Milestone4.RawRow := {|
  Milestone4.raw_Severity := Some severity;
  Milestone4.raw_Start_Time := Some start_time;
  Milestone4.raw_Start_Lat := Some (Qmake 40 1);
  Milestone4.raw_Start_Lng := Some (Qmake (-75) 1);
  Milestone4.raw_City := Some city;
  Milestone4.raw_State := state;
  Milestone4.raw_Weather_Condition := weather
|}.

Definition csv : list Milestone4.RawRow := [
  row 2 "2023-03-01 08:15:00" "Zanesville" (Some "OH") (Some "Rain");
  row 3 "2023-03-01 17:40:00" "Albany" (Some "NY") (Some "Clear");
  row 1 "not a timestamp" "Buffalo" (Some "NY") None;
  row 4 "2023-03-02 23:05:00" "Dayton" (Some "OH") (Some "Clear")
].

(** A file with a row whose [State] cell is empty. *)
Definition csv_null_state : list Milestone4.RawRow := [
  row 2 "2023-03-01 08:15:00" "Dayton" None (Some "Rain")
].

(** The Dataset of [csv] and its rows of Ohio, any hour, any weather. *)
Definition dataset : list (@Milestone4.Accident clock) :=
  @Milestone4.load_data clock csv.

Definition ohio_view : list (@Milestone4.Accident clock) :=
  Milestone4.df_filtered dataset "OH" [] 0 23 [].

(** The first row of [dataset]. *)
Definition first_accident : @Milestone4.Accident clock :=
  @Milestone4.engineer clock
    (row 2 "2023-03-01 08:15:00" "Zanesville" (Some "OH") (Some "Rain"))
    (Some 8%Z).

(** The third row of [csv], whose time is not a timestamp. *)
Definition poisoned_row : Milestone4.RawRow :=
  row 1 "not a timestamp" "Buffalo" (Some "NY") None.

(** The sidebar of [dataset] when New York is selected. *)
Definition ny_sidebar : Milestone4.Sidebar := {|
  Milestone4.state_options := [Some "All"; Some "NY"; Some "OH"];
  Milestone4.city_options := Some [Some "Albany"; Some "Buffalo"];
  Milestone4.weather_opts := ["Rain"; "Clear"]
|}.

(** The cache right after the first [load_data()] of a run. *)
Definition warm_cache
    : CacheManager.Cache (Key := unit)
        (Dataset := list (@Milestone4.Accident clock)) :=
  (@Milestone4.cached_load_data clock (Ok csv) CacheManager.empty_cache).2.

(** The rows of [dataset], written out. *)
Definition accident (severity : Z) (hour : option Z) (city state : string)
    (weather : option string) : @Milestone4.Accident clock :=
  @Milestone4.Build_Accident clock
    (Some severity) hour (Some (Qmake 40 1)) (Some (Qmake (-75) 1))
    (Some city) (Some state) weather
    hour ((λ _, ()) <$> hour) ((λ _, "Monday") <$> hour).

Definition dataset_rows : list (@Milestone4.Accident clock) := [
  accident 2 (Some 8%Z) "Zanesville" "OH" (Some "Rain");
  accident 3 (Some 17%Z) "Albany" "NY" (Some "Clear");
  accident 1 None "Buffalo" "NY" None;
  accident 4 (Some 23%Z) "Dayton" "OH" (Some "Clear")
].

(** The row that [csv_null_state] leaves in a Dataset. *)
Definition stateless_accident : @Milestone4.Accident clock :=
  @Milestone4.engineer clock
    (row 2 "2023-03-01 08:15:00" "Dayton" None (Some "Rain")) (Some 8%Z).

(** A file for app.py. *)
Definition app_row (severity : Z) (start_time : string) (city : string)
    (state : string) : App.RawRow := {|
  App.raw_Severity := Some severity;
  App.raw_Start_Time := Some start_time;
  App.raw_Start_Lat := Some (Qmake 40 1);
  App.raw_Start_Lng := Some (Qmake (-75) 1);
  App.raw_Street := Some "Main St";
  App.raw_City := Some city;
  App.raw_State := Some state;
  App.raw_Zipcode := Some "43701";
  App.raw_Weather_Condition := Some "Clear"
|}.

Definition app_csv : list App.RawRow := [
  app_row 2 "2023-03-01 08:15:00" "Zanesville" "OH";
  app_row 3 "2023-03-01 17:40:00" "Albany" "NY"
].

Definition app_dataset : list (@App.Accident clock) :=
  @App.load_data clock app_csv.

End Fixture.

(** * Properties *)

(** ** Row selection *)

Lemma elem_of_loc {Row} (mask : Row → bool) (df : list Row) (r : Row) :
  r ∈ loc mask df ↔ mask r = true ∧ r ∈ df.
Proof. unfold loc. by rewrite list_elem_of_filter. Qed.

Lemma loc_sublist {Row} (mask : Row → bool) (df : list Row) :
  loc mask df `sublist_of` df.
Proof. unfold loc. apply sublist_filter. Qed.

Lemma loc_false {Row} (mask : Row → bool) (df : list Row) :
  (∀ r, r ∈ df → mask r = false) → loc mask df = [].
Proof.
  intros Hmask. unfold loc.
  induction df as [|r df IH]; [done|].
  rewrite filter_cons. rewrite decide_False.
  - apply IH. intros r' Hr'. apply Hmask. by right.
  - rewrite Hmask; [done | by left].
Qed.

Lemma eq_scalar_true (x : option string) (v : string) :
  eq_scalar x v = true ↔ x = Some v.
Proof.
  destruct x as [s|]; simpl; [|done].
  rewrite bool_decide_eq_true. split; congruence.
Qed.

Lemma isin_true (x : option string) (values : list string) :
  isin x values = true ↔ ∃ s, x = Some s ∧ s ∈ values.
Proof.
  destruct x as [s|]; simpl.
  - rewrite bool_decide_eq_true. split; [eauto|].
    by intros (s' & [= <-] & Hin).
  - split; [done|]. by intros (s' & [=] & _).
Qed.

Lemma hour_mask_true (x : option Z) (lo hi : Z) :
  ge_scalar x lo && le_scalar x hi = true ↔
  ∃ h, x = Some h ∧ (lo ≤ h ≤ hi)%Z.
Proof.
  destruct x as [h|]; simpl.
  - rewrite andb_true_iff, !Z.leb_le. split; [eauto|].
    by intros (h' & [= <-] & Hh).
  - split; [done|]. by intros (h' & [=] & _).
Qed.

Lemma dropna_subset_sublist {Row Col} (isna : Col → Row → bool)
    (subset : list Col) (df : list Row) :
  dropna_subset isna subset df `sublist_of` df.
Proof. unfold dropna_subset. apply sublist_filter. Qed.

Lemma elem_of_dropna_subset {Row Col} (isna : Col → Row → bool)
    (subset : list Col) (df : list Row) (r : Row) :
  r ∈ dropna_subset isna subset df ↔
  r ∈ df ∧ ∀ c, c ∈ subset → isna c r = false.
Proof.
  unfold dropna_subset. rewrite list_elem_of_filter, forallb_forall.
  split.
  - intros [Hall Hr]. split; [done|]. intros c Hc.
    apply negb_true_iff, Hall. by apply list_elem_of_In.
  - intros [Hr Hall]. split; [|done]. intros c Hc.
    apply negb_true_iff, Hall. by apply list_elem_of_In.
Qed.

Lemma is_null_false {A} (x : option A) : is_null x = false ↔ is_Some x.
Proof.
  destruct x; simpl; split; try done; eauto.
Qed.

(** ** The filter of milestone4.py *)

Section Milestone4_filter.
Context `{Datetime}.
Import Milestone4.

Lemma elem_of_df_filtered (df : list Accident) (selected_state : string)
    (selected_city : list string) (min_hour max_hour : Z)
    (selected_weather : list string) (r : Accident) :
  r ∈ df_filtered df selected_state selected_city min_hour max_hour
        selected_weather ↔
  r ∈ df ∧ region_ok selected_state r ∧ locality_ok selected_city r ∧
  hour_ok min_hour max_hour r ∧ weather_ok selected_weather r.
Proof.
  unfold df_filtered, region_ok, locality_ok, hour_ok, weather_ok.
  assert (Hstate : ∀ d : list Accident,
    r ∈ (if decide (selected_state ≠ "All")
         then loc (λ r, eq_scalar (State r) selected_state) d else d) ↔
    r ∈ d ∧ (selected_state = "All" ∨ State r = Some selected_state)).
  { intros d. destruct (decide (selected_state ≠ "All")) as [Hne|Heq].
    - rewrite elem_of_loc, eq_scalar_true. intuition.
    - apply dec_stable in Heq. intuition. }
  assert (Hcity : ∀ d : list Accident,
    r ∈ match selected_city with
        | [] => d
        | _ => loc (λ r, isin (City r) selected_city) d
        end ↔
    r ∈ d ∧ (selected_city = [] ∨ ∃ c, City r = Some c ∧ c ∈ selected_city)).
  { intros d. destruct selected_city as [|c0 cs].
    - intuition.
    - rewrite elem_of_loc, isin_true. intuition; discriminate. }
  assert (Hweather : ∀ d : list Accident,
    r ∈ match selected_weather with
        | [] => d
        | _ => loc (λ r, isin (Weather_Condition r) selected_weather) d
        end ↔
    r ∈ d ∧ (selected_weather = [] ∨
             ∃ w, Weather_Condition r = Some w ∧ w ∈ selected_weather)).
  { intros d. destruct selected_weather as [|w0 ws].
    - intuition.
    - rewrite elem_of_loc, isin_true. intuition; discriminate. }
  cbv zeta. rewrite Hweather, elem_of_loc, hour_mask_true, Hcity, Hstate.
  intuition.
Qed.

Lemma df_filtered_sublist (df : list Accident) (selected_state : string)
    (selected_city : list string) (min_hour max_hour : Z)
    (selected_weather : list string) :
  df_filtered df selected_state selected_city min_hour max_hour
    selected_weather `sublist_of` df.
Proof.
  unfold df_filtered.
  assert (H1 : (if decide (selected_state ≠ "All")
                then loc (λ r, eq_scalar (State r) selected_state) df
                else df) `sublist_of` df).
  { case_decide; [apply loc_sublist | done]. }
  revert H1. generalize (if decide (selected_state ≠ "All")
                then loc (λ r, eq_scalar (State r) selected_state) df
                else df). intros d1 H1.
  assert (H2 : match selected_city with
               | [] => d1
               | _ => loc (λ r, isin (City r) selected_city) d1
               end `sublist_of` df).
  { destruct selected_city; [done|]. etrans; [apply loc_sublist | done]. }
  revert H2. generalize (match selected_city with
               | [] => d1
               | _ => loc (λ r, isin (City r) selected_city) d1
               end). intros d2 H2. cbv zeta.
  assert (H3 : loc (λ r, ge_scalar (Hour r) min_hour && le_scalar (Hour r) max_hour)
                 d2 `sublist_of` df).
  { etrans; [apply loc_sublist | done]. }
  destruct selected_weather; [done|]. etrans; [apply loc_sublist | done].
Qed.

(** C1.  Whatever the Dataset and the criteria, the filter step completes
    with a view that is a sub-sequence of the Dataset (no row is made up),
    and every row of the view meets the four predicates at once: its state
    is the selected one unless "All" is selected, its city is among the
    selected ones unless none is selected, its hour is not null and lies in
    the inclusive range, and its weather is among the selected ones unless
    none is selected. *)
Theorem filter_engine_subset_and_predicates (df : list Accident)
    (selected_state : string) (selected_city : list string)
    (min_hour max_hour : Z) (selected_weather : list string) :
  ∃ view,
    apply_filters df selected_state selected_city min_hour max_hour
      selected_weather = Ok view ∧
    view `sublist_of` df ∧
    ∀ r, r ∈ view →
      r ∈ df ∧
      region_ok selected_state r ∧
      locality_ok selected_city r ∧
      hour_ok min_hour max_hour r ∧
      weather_ok selected_weather r.
Proof.
  eexists. split; [reflexivity|]. split.
  - apply df_filtered_sublist.
  - intros r Hr. by apply elem_of_df_filtered.
Qed.

End Milestone4_filter.

Section Milestone4_hours.
Context `{Datetime}.
Import Milestone4.

Lemma hour_mask_crossed (x : option Z) (lo hi : Z) :
  (hi < lo)%Z → ge_scalar x lo && le_scalar x hi = false.
Proof.
  intros Hcross. apply not_true_is_false. rewrite hour_mask_true.
  intros (h & _ & Hh). lia.
Qed.

Lemma df_filtered_null_hour (df : list Accident) (selected_state : string)
    (selected_city : list string) (min_hour max_hour : Z)
    (selected_weather : list string) (r : Accident) :
  Hour r = None →
  r ∉ df_filtered df selected_state selected_city min_hour max_hour
        selected_weather.
Proof.
  intros Hnull Hin. apply elem_of_df_filtered in Hin.
  destruct Hin as (_ & _ & _ & (h & Hh & _) & _). congruence.
Qed.

(** C9, as the code has it.  A range whose lower bound exceeds its upper
    bound is not rejected: the filter step completes normally and its
    result is the empty view, because no hour satisfies both comparisons. *)
Theorem crossed_hour_range_gives_empty_view (df : list Accident)
    (selected_state : string) (selected_city : list string)
    (min_hour max_hour : Z) (selected_weather : list string) :
  (max_hour < min_hour)%Z →
  apply_filters df selected_state selected_city min_hour max_hour
    selected_weather = Ok [].
Proof.
  intros Hcross. unfold apply_filters, df_filtered. f_equal. cbv zeta.
  rewrite (loc_false (λ r, ge_scalar (Hour r) min_hour && le_scalar (Hour r) max_hour)).
  - by destruct selected_weather.
  - intros r _. by apply hour_mask_crossed.
Qed.

End Milestone4_hours.

(** ** Ingestion *)

Section Milestone4_ingestion.
Context `{Datetime}.
Import Milestone4.

Lemma lookup_load_data (csv : list RawRow) (i : nat) :
  load_data csv !! i =
  r ← dropped csv !! i;
  t ← to_datetime (raw_Start_Time <$> dropped csv) !! i;
  Some (engineer r t).
Proof. unfold load_data. cbv zeta. apply lookup_zip_with. Qed.

Lemma elem_of_load_data (csv : list RawRow) (a : Accident) :
  a ∈ load_data csv →
  ∃ r, r ∈ dropped csv ∧ a = engineer r (Start_Time a).
Proof.
  unfold load_data. cbv zeta. intros Ha.
  apply elem_of_lookup_zip_with in Ha as (i & r & t & -> & Hr & _).
  exists r. split; [|done]. by eapply list_elem_of_lookup_2.
Qed.

Lemma length_load_data (csv : list RawRow) :
  length (load_data csv) = length (dropped csv).
Proof.
  unfold load_data. cbv zeta.
  rewrite length_zip_with, to_datetime_length, length_fmap. lia.
Qed.

Lemma elem_of_dropped (csv : list RawRow) (r : RawRow) :
  r ∈ dropped csv ↔
  r ∈ take nrows csv ∧
  is_Some (raw_City r) ∧ is_Some (raw_Start_Lat r) ∧ is_Some (raw_Start_Lng r).
Proof.
  unfold dropped. rewrite elem_of_dropna_subset. split.
  - intros [Hr Hall]. split; [done|].
    rewrite <- !is_null_false.
    split; [|split].
    + apply (Hall City_col). set_solver.
    + apply (Hall Start_Lat_col). set_solver.
    + apply (Hall Start_Lng_col). set_solver.
  - intros (Hr & Hc & Hlat & Hlng). split; [done|].
    intros c Hc'. apply is_null_false in Hc, Hlat, Hlng.
    repeat (apply elem_of_cons in Hc' as [->|Hc']; [done|]).
    by apply elem_of_nil in Hc'.
Qed.

(** C2.  Take any row that reaches the parsing step (position [i] of the
    frame left by [dropna]) and whose [Start_Time] the parser turns into
    NaT.  The row stays in the Dataset, at the same position, with its
    other cells unchanged and with null [Hour], [Weekday] and [Date]; and
    no hour range, whatever its bounds, lets it into a filtered view. *)
Theorem unparsable_start_time_kept_and_never_matched (csv : list RawRow)
    (i : nat) (r : RawRow) :
  dropped csv !! i = Some r →
  to_datetime (raw_Start_Time <$> dropped csv) !! i = Some None →
  ∃ a,
    load_data csv !! i = Some a ∧
    a = engineer r None ∧
    Hour a = None ∧ Weekday a = None ∧ Date a = None ∧
    ∀ selected_state selected_city min_hour max_hour selected_weather,
      a ∉ df_filtered (load_data csv) selected_state selected_city
            min_hour max_hour selected_weather.
Proof.
  intros Hr Ht. exists (engineer r None). split.
  - rewrite lookup_load_data, Hr, Ht. done.
  - repeat split. intros. by apply df_filtered_null_hour.
Qed.

End Milestone4_ingestion.

Section App_ingestion.
Context `{Datetime}.
Import App.

Lemma elem_of_app_load_data (csv : list RawRow) (a : Accident) :
  a ∈ load_data csv →
  ∃ r, r ∈ dropped csv ∧ a = engineer r (Start_Time a).
Proof.
  unfold load_data. cbv zeta. intros Ha.
  apply elem_of_lookup_zip_with in Ha as (i & r & t & -> & Hr & _).
  exists r. split; [|done]. by eapply list_elem_of_lookup_2.
Qed.

Lemma elem_of_app_dropped (csv : list RawRow) (r : RawRow) :
  r ∈ dropped csv →
  r ∈ take nrows csv ∧
  is_Some (raw_Street r) ∧ is_Some (raw_City r) ∧ is_Some (raw_Zipcode r) ∧
  is_Some (raw_Start_Lat r) ∧ is_Some (raw_Start_Lng r).
Proof.
  unfold dropped. rewrite elem_of_dropna_subset.
  intros [Hr Hall]. split; [done|].
  rewrite <- !is_null_false.
  repeat split.
  - apply (Hall Street_col). set_solver.
  - apply (Hall City_col). set_solver.
  - apply (Hall Zipcode_col). set_solver.
  - apply (Hall Start_Lat_col). set_solver.
  - apply (Hall Start_Lng_col). set_solver.
Qed.

End App_ingestion.

(** C4, as the code has it.  Every row that survives ingestion comes from
    one of the first [nrows] rows of the file and has non-null
    [Start_Lat], [Start_Lng] and [City] (in app.py also [Street] and
    [Zipcode]), so a row missing one of these is dropped.  [State] is not
    among the required columns. *)
Theorem ingestion_keeps_only_rows_with_location `{Datetime} :
  (∀ csv a, a ∈ Milestone4.load_data csv →
     (∃ r, r ∈ take Milestone4.nrows csv ∧
           a = Milestone4.engineer r (Milestone4.Start_Time a)) ∧
     is_Some (Milestone4.Start_Lat a) ∧ is_Some (Milestone4.Start_Lng a) ∧
     is_Some (Milestone4.City a)) ∧
  (∀ csv a, a ∈ App.load_data csv →
     (∃ r, r ∈ take App.nrows csv ∧ a = App.engineer r (App.Start_Time a)) ∧
     is_Some (App.Start_Lat a) ∧ is_Some (App.Start_Lng a) ∧
     is_Some (App.City a) ∧ is_Some (App.Street a) ∧ is_Some (App.Zipcode a)).
Proof.
  split.
  - intros csv a Ha. apply elem_of_load_data in Ha as (r & Hr & Ha).
    apply elem_of_dropped in Hr as (Hr & Hc & Hlat & Hlng).
    split; [by exists r|]. rewrite Ha. done.
  - intros csv a Ha. apply elem_of_app_load_data in Ha as (r & Hr & Ha).
    apply elem_of_app_dropped in Hr as (Hr & Hst & Hc & Hz & Hlat & Hlng).
    split; [by exists r|]. rewrite Ha. done.
Qed.

(** ** The order on strings *)

Lemma ascii_compare_lt (a b : ascii) :
  Ascii.compare a b = Lt ↔ (N_of_ascii a < N_of_ascii b)%N.
Proof. unfold Ascii.compare. by rewrite N.compare_lt_iff. Qed.

Lemma string_compare_refl (s : string) : String.compare s s = Eq.
Proof.
  induction s as [|a s IH]; simpl; [done|].
  unfold Ascii.compare. by rewrite N.compare_refl.
Qed.

Lemma string_compare_lt_trans (s1 s2 s3 : string) :
  String.compare s1 s2 = Lt → String.compare s2 s3 = Lt →
  String.compare s1 s3 = Lt.
Proof.
  revert s2 s3. induction s1 as [|a s1 IH]; intros [|b s2] [|c s3]; simpl;
    try done.
  destruct (Ascii.compare a b) eqn:Hab; try done.
  - apply Ascii.compare_eq_iff in Hab as ->.
    destruct (Ascii.compare b c) eqn:Hbc; try done. apply IH.
  - intros _. destruct (Ascii.compare b c) eqn:Hbc; try done.
    + apply Ascii.compare_eq_iff in Hbc as <-. by rewrite Hab.
    + intros _. apply ascii_compare_lt in Hab. apply ascii_compare_lt in Hbc.
      assert (Hac : Ascii.compare a c = Lt).
      { apply ascii_compare_lt. by eapply N.lt_trans. }
      by rewrite Hac.
Qed.

Lemma str_le_compare (s1 s2 : string) :
  str_le s1 s2 ↔ s1 = s2 ∨ String.compare s1 s2 = Lt.
Proof.
  unfold str_le, String.leb. destruct (String.compare s1 s2) eqn:Hc.
  - apply String.compare_eq_iff in Hc. intuition.
  - intuition.
  - split; [done|]. intros [->|]; [|done].
    by rewrite string_compare_refl in Hc.
Qed.

#[export] Instance str_le_refl : Reflexive str_le.
Proof. intros s. apply str_le_compare. by left. Qed.

#[export] Instance str_le_trans : Transitive str_le.
Proof.
  intros s1 s2 s3. rewrite !str_le_compare.
  intros [->|H12] [->|H23]; eauto using string_compare_lt_trans.
Qed.

#[export] Instance str_le_total : Total str_le.
Proof. intros s1 s2. apply String.leb_total. Qed.

#[export] Instance str_le_antisym : AntiSymm (=) str_le.
Proof. intros s1 s2. apply String.leb_antisym. Qed.

(** ** Distinct values, sorting and the mode *)

Lemma elem_of_dropna {A} (s : list (option A)) (x : A) :
  x ∈ dropna s ↔ Some x ∈ s.
Proof.
  unfold dropna. rewrite list_elem_of_omap. split.
  - intros (o & Ho & Hid). simpl in Hid. by subst o.
  - intros Hx. by exists (Some x).
Qed.

Lemma dropna_nil_iff {A} (s : list (option A)) :
  dropna s = [] ↔ ∀ x, Some x ∉ s.
Proof.
  split.
  - intros Hnil x Hx. apply elem_of_dropna in Hx.
    rewrite Hnil in Hx. by apply elem_of_nil in Hx.
  - intros Hall. destruct (dropna s) as [|x l] eqn:Hd; [done|].
    exfalso. apply (Hall x), elem_of_dropna. rewrite Hd. by left.
Qed.

Lemma elem_of_unique {A} `{EqDecision A} (s : list A) (x : A) :
  x ∈ unique s ↔ x ∈ s.
Proof.
  induction s as [|y s IH]; simpl; [done|].
  rewrite !elem_of_cons, list_elem_of_filter, IH.
  destruct (decide (x = y)); intuition.
Qed.

Lemma NoDup_unique {A} `{EqDecision A} (s : list A) : NoDup (unique s).
Proof.
  induction s as [|y s IH]; simpl; [constructor|].
  constructor.
  - rewrite list_elem_of_filter. intuition.
  - by apply NoDup_filter.
Qed.

Lemma value_count_pos (v : string) (vals : list string) :
  0 < value_count v vals ↔ v ∈ vals.
Proof.
  unfold value_count. split.
  - intros Hpos.
    destruct (filter (λ y, y = v) vals) as [|y l] eqn:Hf; [simpl in Hpos; lia|].
    assert (Hy : y ∈ filter (λ y, y = v) vals) by (rewrite Hf; by left).
    apply list_elem_of_filter in Hy as [-> Hy]. done.
  - intros Hv.
    assert (Hy : v ∈ filter (λ y, y = v) vals) by by apply list_elem_of_filter.
    destruct (filter (λ y, y = v) vals); [by apply elem_of_nil in Hy|].
    simpl. lia.
Qed.

Section Mode.
Variable s : list (option string).

Let vals := dropna s.
Let top := max_list ((λ v, value_count v vals) <$> unique vals).

Lemma value_count_le_top (v : string) : value_count v vals ≤ top.
Proof.
  destruct (decide (v ∈ vals)) as [Hv|Hv].
  - apply max_list_elem_of_le, list_elem_of_fmap.
    exists v. split; [done|]. by apply elem_of_unique.
  - assert (value_count v vals = 0); [|lia].
    destruct (value_count v vals) eqn:Hc; [done|].
    exfalso. apply Hv, value_count_pos. lia.
Qed.

Lemma top_attained : vals ≠ [] → ∃ v, v ∈ vals ∧ value_count v vals = top.
Proof.
  intros Hne.
  assert (Hin : top ∈ (λ v, value_count v vals) <$> unique vals).
  { apply max_list_elem_of. intros Hnil%fmap_nil_inv.
    destruct vals as [|x l]; [done|]. discriminate Hnil. }
  apply list_elem_of_fmap in Hin as (v & Hv & Hin).
  exists v. split; [|done]. by rewrite elem_of_unique in Hin.
Qed.

Lemma elem_of_mode (v : string) : v ∈ mode s ↔ most_frequent v s.
Proof.
  unfold mode, most_frequent. fold vals. fold top.
  rewrite merge_sort_Permutation, list_elem_of_filter, elem_of_unique.
  unfold vals at 2. rewrite elem_of_dropna. split.
  - intros [Hv Hin]. split; [done|]. intros v'. rewrite Hv.
    apply value_count_le_top.
  - intros [Hin Hmax]. split; [|done].
    destruct top_attained as (v' & _ & Hv').
    { intros Hnil. apply elem_of_dropna in Hin. fold vals in Hin.
      rewrite Hnil in Hin. by apply elem_of_nil in Hin. }
    pose proof (value_count_le_top v). specialize (Hmax v'). lia.
Qed.

Lemma mode_nil_iff : mode s = [] ↔ vals = [].
Proof.
  split.
  - intros Hnil. destruct (decide (vals = [])) as [|Hne]; [done|].
    destruct (top_attained Hne) as (v & Hv & Hc).
    assert (Hm : v ∈ mode s).
    { apply elem_of_mode. split; [by apply elem_of_dropna|].
      intros v'. fold vals. rewrite Hc. apply value_count_le_top. }
    rewrite Hnil in Hm. by apply elem_of_nil in Hm.
  - intros Hnil. unfold mode. fold vals. by rewrite Hnil.
Qed.

Lemma mode_head_least (m : string) (rest : list string) :
  mode s = m :: rest → least_most_frequent m s.
Proof.
  intros Hm. split.
  - apply elem_of_mode. rewrite Hm. by left.
  - intros v' Hv'. apply elem_of_mode in Hv'.
    assert (Hsorted : StronglySorted str_le (mode s)).
    { unfold mode. apply (StronglySorted_merge_sort _). }
    rewrite Hm in Hsorted, Hv'. apply StronglySorted_inv in Hsorted as [_ Hall].
    apply elem_of_cons in Hv' as [->|Hv']; [done|].
    by eapply Forall_forall in Hall.
Qed.

End Mode.

(** ** Key metrics *)

Lemma getitem0_mode (s : list (option string)) :
  dropna s ≠ [] →
  ∃ m, getitem0 (mode s) = Ok m ∧ least_most_frequent m s.
Proof.
  intros Hne. destruct (mode s) as [|m rest] eqn:Hm.
  - by apply mode_nil_iff in Hm.
  - exists m. split; [done|]. by eapply mode_head_least.
Qed.

Section Milestone4_metrics.
Context `{Datetime}.
Import Milestone4.

Lemma load_data_city (csv : list RawRow) (a : Accident) :
  a ∈ load_data csv → is_Some (City a).
Proof.
  intros Ha. apply elem_of_load_data in Ha as (r & Hr & ->).
  by apply elem_of_dropped in Hr as (_ & Hc & _).
Qed.

Lemma key_metrics_empty : key_metrics [] = Ok (NoData 0).
Proof. reflexivity. Qed.

Lemma key_metrics_nonempty (view : list Accident) :
  (∃ r, r ∈ view ∧ is_Some (City r)) →
  ∃ city avg weather,
    key_metrics view = Ok (Metrics (length view) city avg weather) ∧
    least_most_frequent city (City <$> view) ∧
    match weather with
    | Some w => least_most_frequent w (Weather_Condition <$> view)
    | None => ∀ r, r ∈ view → Weather_Condition r = None
    end.
Proof.
  intros (r0 & Hr0 & [c0 Hc0]).
  destruct (getitem0_mode (City <$> view)) as (city & Hcity & Hleast).
  { intros Hnil. apply (proj1 (dropna_nil_iff _) Hnil c0).
    apply list_elem_of_fmap. by exists r0. }
  destruct view as [|r view']; [by apply elem_of_nil in Hr0|].
  destruct (mode (Weather_Condition <$> r :: view')) as [|w ws] eqn:Hw.
  - eexists city, _, None.
    split; [unfold key_metrics; by rewrite Hcity, Hw|]. split; [done|].
    intros r' Hr'. apply mode_nil_iff in Hw.
    destruct (Weather_Condition r') as [w|] eqn:Hwr; [|done].
    exfalso. apply (proj1 (dropna_nil_iff _) Hw w).
    apply list_elem_of_fmap. by exists r'.
  - eexists city, _, (Some w).
    split; [unfold key_metrics; by rewrite Hcity, Hw|]. split; [done|].
    by eapply mode_head_least.
Qed.

(** C5, as the code has it.  On every non-empty filtered view of a loaded
    Dataset the metrics are computed, and the city shown is a most
    frequent city of the view; when several cities are equally frequent it
    is the smallest of them in string order, not the one met first.  The
    weather shown follows the same rule, and is left out exactly when
    every row of the view has a null weather. *)
Theorem modal_values_are_least_most_frequent (csv : list RawRow)
    (selected_state : string) (selected_city : list string)
    (min_hour max_hour : Z) (selected_weather : list string) :
  df_filtered (load_data csv) selected_state selected_city min_hour max_hour
    selected_weather ≠ [] →
  ∃ city avg weather,
    key_metrics (df_filtered (load_data csv) selected_state selected_city
                   min_hour max_hour selected_weather) =
      Ok (Metrics (length (df_filtered (load_data csv) selected_state
                             selected_city min_hour max_hour selected_weather))
            city avg weather) ∧
    least_most_frequent city
      (City <$> df_filtered (load_data csv) selected_state selected_city
                  min_hour max_hour selected_weather) ∧
    match weather with
    | Some w =>
        least_most_frequent w
          (Weather_Condition <$> df_filtered (load_data csv) selected_state
             selected_city min_hour max_hour selected_weather)
    | None =>
        ∀ r, r ∈ df_filtered (load_data csv) selected_state selected_city
                   min_hour max_hour selected_weather →
             Weather_Condition r = None
    end.
Proof.
  intros Hne. apply key_metrics_nonempty.
  destruct (df_filtered _ _ _ _ _ _) as [|r view] eqn:Hview; [done|].
  exists r. split; [by left|].
  apply (load_data_city csv).
  assert (Hr : r ∈ df_filtered (load_data csv) selected_state selected_city
                     min_hour max_hour selected_weather).
  { rewrite Hview. by left. }
  by apply elem_of_df_filtered in Hr as [Hr _].
Qed.

End Milestone4_metrics.

(** C3 at the failing input of app.py: a file none of whose rows survives
    [dropna] (a header alone, say), state "All".  The filtered view is
    empty and the metrics block raises KeyError at [mode()[0]] instead of
    reporting that there is no data. *)
Theorem app_key_metrics_raise_on_empty_view `{Datetime} :
  App.df_filtered (App.load_data []) "All" = [] ∧
  App.key_metrics (App.df_filtered (App.load_data []) "All") = Raise KeyError.
Proof. split; reflexivity. Qed.

(** ** Sampling without replacement *)

Lemma length_draw {A} (n : nat) (pool : list A) (rng : list nat) :
  n ≤ length pool → length (draw n pool rng) = n.
Proof.
  revert pool rng. induction n as [|n IH]; intros pool rng Hn; [done|].
  simpl.
  assert (Hi : hd 0 rng `mod` length pool < length pool).
  { apply Nat.mod_upper_bound. lia. }
  destruct (lookup_lt_is_Some_2 _ _ Hi) as [x Hx]. rewrite Hx. simpl.
  rewrite IH; [done|]. rewrite length_delete; [lia | by eexists].
Qed.

Lemma draw_submseteq {A} (n : nat) (pool : list A) (rng : list nat) :
  draw n pool rng ⊆+ pool.
Proof.
  revert pool rng. induction n as [|n IH]; intros pool rng; simpl.
  - apply submseteq_nil_l.
  - destruct (pool !! (hd 0 rng `mod` length pool)) as [x|] eqn:Hx.
    + etrans; [apply submseteq_skip, IH|].
      apply Permutation_submseteq. symmetry. by apply delete_Permutation.
    + apply submseteq_nil_l.
Qed.

Lemma sample_min {A} (cap : nat) (df : list A) (rng : list nat) :
  ∃ s, sample (Nat.min cap (length df)) df rng = Ok s ∧
       length s = Nat.min cap (length df) ∧ s ⊆+ df.
Proof.
  unfold sample. rewrite decide_False by lia.
  eexists. split; [done|]. split.
  - apply length_draw. lia.
  - apply draw_submseteq.
Qed.

(** C6.  For every cap, view and random source the sampler completes
    with exactly [min cap (length view)] rows that form a sub-multiset of
    the view: every sampled row is a row of the view, and no row of the
    view is used more often than it occurs there.  On the empty view the
    result is the empty list.  milestone4.py and app.py both sample with
    cap 1000. *)
Theorem geo_sample_size_and_membership `{Datetime} :
  (∀ cap view rng,
     ∃ s, Milestone4.geo_sample cap view rng = Ok s ∧
          length s = Nat.min cap (length view) ∧ s ⊆+ view) ∧
  (∀ cap rng, Milestone4.geo_sample cap [] rng = Ok []) ∧
  (∀ view rng,
     Milestone4.marker_data view rng = Milestone4.geo_sample 1000 view rng) ∧
  (∀ view rng,
     ∃ s, App.sample_map view rng = Ok s ∧
          length s = Nat.min 1000 (length view) ∧ s ⊆+ view).
Proof.
  split; [|split; [|split]].
  - intros cap [|r view] rng.
    + exists []. simpl. by rewrite Nat.min_0_r.
    + apply sample_min.
  - done.
  - done.
  - intros [|r view] rng.
    + by exists [].
    + apply (sample_min 1000).
Qed.

(** ** Sidebar options *)

Lemma sorted_Ok_elem_of (xs ys : list (option string)) (x : option string) :
  sorted xs = Ok ys → x ∈ ys ↔ x ∈ xs.
Proof.
  unfold sorted. destruct (dropna xs) as [|s strs] eqn:Hd.
  - by intros [= <-].
  - case_decide as Hnone; [done|]. intros [= <-].
    rewrite list_elem_of_fmap. setoid_rewrite merge_sort_Permutation.
    rewrite <- Hd. setoid_rewrite elem_of_dropna. split.
    + by intros (v & -> & Hv).
    + intros Hx. destruct x as [v|]; [by exists v | done].
Qed.

Lemma sorted_no_null (xs : list (option string)) :
  None ∉ xs →
  ∃ strs, sorted xs = Ok (Some <$> strs) ∧
          Sorted str_le strs ∧ strs ≡ₚ dropna xs.
Proof.
  intros Hnone. unfold sorted. destruct (dropna xs) as [|s strs] eqn:Hd.
  - exists []. destruct xs as [|[v|] xs]; [done| |].
    + discriminate Hd.
    + exfalso. apply Hnone. by left.
  - rewrite decide_False by done.
    exists (merge_sort str_le (s :: strs)). split; [done|]. split.
    + apply (Sorted_merge_sort _).
    + apply merge_sort_Permutation.
Qed.

Section Milestone4_sidebar.
Context `{Datetime}.
Import Milestone4.

Lemma sidebar_Ok (df : list Accident) (selected_state : string)
    (sb : Sidebar) :
  sidebar df selected_state = Ok sb →
  ∃ states,
    state_list df = Ok states ∧
    state_options sb = Some "All" :: states ∧
    weather_opts sb = weather_options df ∧
    if decide (selected_state ≠ "All")
    then ∃ cities, city_list df selected_state = Ok cities ∧
                   city_options sb = Some cities
    else city_options sb = None.
Proof.
  unfold sidebar. destruct (state_list df) as [states|e]; [|done].
  simpl. case_decide.
  - destruct (city_list df selected_state) as [cities|e]; [|done].
    simpl. intros [= <-]. exists states. simpl. repeat split. by exists cities.
  - simpl. intros [= <-]. exists states. by simpl.
Qed.

Lemma elem_of_weather_options (df : list Accident) (w : string) :
  w ∈ weather_options df ↔ ∃ r, r ∈ df ∧ Weather_Condition r = Some w.
Proof.
  unfold weather_options.
  rewrite elem_of_unique, elem_of_dropna, list_elem_of_fmap.
  split; intros (r & ? & ?); by exists r.
Qed.

(** The city options never fail on a loaded Dataset: its [City] column
    has no null cell. *)
Lemma city_list_loaded (csv : list RawRow) (selected_state : string) :
  ∃ cities, city_list (load_data csv) selected_state = Ok (Some <$> cities) ∧
            Sorted str_le cities.
Proof.
  unfold city_list.
  destruct (sorted_no_null
    (unique (City <$> loc (λ r, eq_scalar (State r) selected_state)
                        (load_data csv)))) as (cities & Hs & Hsorted & _).
  - rewrite elem_of_unique, list_elem_of_fmap. intros (r & Hnull & Hr).
    apply elem_of_loc in Hr as [_ Hr]. apply load_data_city in Hr as [c Hc].
    congruence.
  - by exists cities.
Qed.

(** C7.  When a state other than "All" is selected and the sidebar is
    drawn, the cities offered are exactly the [City] cells of the rows of
    that state: a value is offered if and only if some row of the Dataset
    has the selected state and that city. *)
Theorem city_options_follow_region (df : list Accident)
    (selected_state : string) (sb : Sidebar) :
  selected_state ≠ "All" →
  sidebar df selected_state = Ok sb →
  ∃ cities,
    city_options sb = Some cities ∧
    ∀ c, c ∈ cities ↔
         ∃ r, r ∈ df ∧ State r = Some selected_state ∧ City r = c.
Proof.
  intros Hne Hsb. apply sidebar_Ok in Hsb as (states & _ & _ & _ & Hc).
  rewrite decide_True in Hc by done. destruct Hc as (cities & Hlist & Hopt).
  exists cities. split; [done|]. intros c. unfold city_list in Hlist.
  rewrite (sorted_Ok_elem_of _ _ c Hlist), elem_of_unique, list_elem_of_fmap.
  split.
  - intros (r & -> & Hr). apply elem_of_loc in Hr as [Hs Hr].
    apply eq_scalar_true in Hs. by exists r.
  - intros (r & Hr & Hs & <-). exists r. split; [done|].
    apply elem_of_loc. split; [|done]. by apply eq_scalar_true.
Qed.

(** C10.  Whenever the sidebar is drawn, the weather options are exactly
    the non-null [Weather_Condition] values of the whole Dataset, with no
    regard to the state of the rows; and they are the same list whatever
    state is selected. *)
Theorem weather_options_ignore_region (df : list Accident)
    (selected_state : string) (sb : Sidebar) :
  sidebar df selected_state = Ok sb →
  (∀ w, w ∈ weather_opts sb ↔
        ∃ r, r ∈ df ∧ Weather_Condition r = Some w) ∧
  (∀ other_state sb', sidebar df other_state = Ok sb' →
                      weather_opts sb' = weather_opts sb).
Proof.
  intros Hsb. apply sidebar_Ok in Hsb as (states & _ & _ & Hw & _).
  split.
  - intros w. rewrite Hw. apply elem_of_weather_options.
  - intros s' sb' Hsb'. apply sidebar_Ok in Hsb' as (? & _ & _ & Hw' & _).
    congruence.
Qed.

End Milestone4_sidebar.

(** ** The load cache *)

Section Cache_properties.
Context {Key : Type} `{Countable Key} {Source Dataset : Type}.
Variable ingestion : Source → Key → Result Dataset.
Import CacheManager.

Local Abbreviation get_or_load := (get_or_load ingestion).
Local Abbreviation serve := (serve ingestion).

Lemma get_or_load_hit (src : Source) (k : Key) (c : Cache) (d : Dataset) :
  entries c !! k = Some d → get_or_load src k c = (Ok d, c).
Proof. intros Hk. unfold CacheManager.get_or_load. by rewrite Hk. Qed.

Lemma get_or_load_stores (src : Source) (k : Key) (c c' : Cache)
    (d : Dataset) :
  get_or_load src k c = (Ok d, c') → entries c' !! k = Some d.
Proof.
  unfold CacheManager.get_or_load.
  destruct (entries c !! k) as [d0|] eqn:Hk.
  - by intros [= <- <-].
  - destruct (ingestion src k) as [d0|e]; [|done].
    intros [= <- <-]. simpl. apply lookup_insert_eq.
Qed.

(** A request for any key keeps what is stored under [k], and does not
    read the source for [k] again. *)
Lemma get_or_load_keeps (src : Source) (k' k : Key) (c : Cache)
    (d : Dataset) :
  entries c !! k = Some d →
  entries (get_or_load src k' c).2 !! k = Some d ∧
  load_count k (get_or_load src k' c).2 = load_count k c.
Proof.
  intros Hk. unfold CacheManager.get_or_load.
  destruct (entries c !! k') as [d'|] eqn:Hk'; [done|].
  assert (Hne : k' ≠ k) by congruence.
  unfold load_count.
  destruct (ingestion src k') as [d'|e]; simpl;
    rewrite filter_cons, decide_False by done.
  - by rewrite lookup_insert_ne.
  - done.
Qed.

Lemma serve_keeps (requests : list (Source * Key)) (k : Key) (c : Cache)
    (d : Dataset) :
  entries c !! k = Some d →
  entries (serve requests c) !! k = Some d ∧
  load_count k (serve requests c) = load_count k c.
Proof.
  revert c. induction requests as [|[src k'] requests IH]; intros c Hk;
    [done|].
  unfold CacheManager.serve. simpl.
  destruct (get_or_load_keeps src k' k c d Hk) as [Hk1 Hcount].
  destruct (IH _ Hk1) as [Hk2 Hcount2]. split; [done|].
  unfold CacheManager.serve in Hcount2. by rewrite Hcount2.
Qed.

(** C8.  Once a call for a key has returned a Dataset, every later call
    for the same key, after any number of other requests and whatever the
    source holds by then, returns that same Dataset, leaves the cache as
    it is and adds no read: the load counter of the key is what it was
    right after the first call. *)
Theorem cache_hit_returns_same_dataset_without_reading (src1 src2 : Source)
    (k : Key) (c c1 : Cache) (d : Dataset)
    (requests : list (Source * Key)) :
  get_or_load src1 k c = (Ok d, c1) →
  get_or_load src2 k (serve requests c1) = (Ok d, serve requests c1) ∧
  load_count k (serve requests c1) = load_count k c1.
Proof.
  intros Hfirst. apply get_or_load_stores in Hfirst.
  destruct (serve_keeps requests k c1 d Hfirst) as [Hk Hcount].
  split; [by apply get_or_load_hit | done].
Qed.

End Cache_properties.

(** * Worked examples on the sample data *)

(** The sample files are far shorter than the row cap, so [read_csv]
    delivers them whole; [eval_fixture] uses this before a goal on the
    sample data is settled by evaluation. *)
Lemma take_nrows_short (rows : list Milestone4.RawRow) :
  length rows ≤ 1000 → take Milestone4.nrows rows = rows.
Proof. intros Hlen. apply take_ge. unfold Milestone4.nrows. lia. Qed.

Ltac eval_fixture :=
  unfold Fixture.ohio_view, Fixture.dataset, Milestone4.load_data,
    Milestone4.dropped;
  rewrite !take_nrows_short by (simpl; lia).

Section Examples.
Import Fixture.
#[local] Existing Instance clock.

Lemma filter_engine_subset_and_predicates_witness :
  ∃ view,
    Milestone4.apply_filters dataset "NY" ["Albany"; "Buffalo"] 0 23 [] =
      Ok view ∧
    view `sublist_of` dataset ∧
    ∀ r, r ∈ view →
      r ∈ dataset ∧
      Milestone4.region_ok "NY" r ∧
      Milestone4.locality_ok ["Albany"; "Buffalo"] r ∧
      Milestone4.hour_ok 0 23 r ∧
      Milestone4.weather_ok [] r.
Proof. apply filter_engine_subset_and_predicates. Defined.

Lemma unparsable_start_time_kept_and_never_matched_witness :
  Milestone4.dropped csv !! 2 = Some poisoned_row ∧
  to_datetime (Milestone4.raw_Start_Time <$> Milestone4.dropped csv) !! 2 =
    Some None ∧
  ∃ a,
    dataset !! 2 = Some a ∧
    a = Milestone4.engineer poisoned_row None ∧
    Milestone4.Hour a = None ∧ Milestone4.Weekday a = None ∧
    Milestone4.Date a = None ∧
    ∀ selected_state selected_city min_hour max_hour selected_weather,
      a ∉ Milestone4.df_filtered dataset selected_state selected_city
            min_hour max_hour selected_weather.
Proof.
  assert (Hrow : Milestone4.dropped csv !! 2 = Some poisoned_row)
    by (eval_fixture; reflexivity).
  assert (Htime : to_datetime
            (Milestone4.raw_Start_Time <$> Milestone4.dropped csv) !! 2 =
          Some None) by (eval_fixture; reflexivity).
  split; [exact Hrow|]. split; [exact Htime|].
  exact (unparsable_start_time_kept_and_never_matched csv 2 poisoned_row
           Hrow Htime).
Defined.

(** C4 refuted as stated: the only row of [csv_null_state] has no state,
    and it survives ingestion. *)
Lemma ingestion_keeps_a_row_with_null_state :
  ¬ (∀ a, a ∈ Milestone4.load_data csv_null_state →
          is_Some (Milestone4.Start_Lat a) ∧
          is_Some (Milestone4.Start_Lng a) ∧
          is_Some (Milestone4.City a) ∧ is_Some (Milestone4.State a)).
Proof.
  intros Hall.
  destruct (Hall (@Milestone4.engineer clock
                    (row 2 "2023-03-01 08:15:00" "Dayton" None (Some "Rain"))
                    (Some 8%Z))) as (_ & _ & _ & [s Hs]).
  - apply list_elem_of_lookup_2 with 0. eval_fixture. reflexivity.
  - discriminate Hs.
Qed.

Lemma ingestion_keeps_only_rows_with_location_witness :
  first_accident ∈ dataset ∧
  (∃ r, r ∈ take Milestone4.nrows csv ∧
        first_accident =
          Milestone4.engineer r (Milestone4.Start_Time first_accident)) ∧
  is_Some (Milestone4.Start_Lat first_accident) ∧
  is_Some (Milestone4.Start_Lng first_accident) ∧
  is_Some (Milestone4.City first_accident).
Proof.
  assert (Hin : first_accident ∈ dataset).
  { apply list_elem_of_lookup_2 with 0. eval_fixture. reflexivity. }
  split; [exact Hin|].
  exact (proj1 ingestion_keeps_only_rows_with_location csv first_accident Hin).
Defined.

(** C5 refuted as stated: in the Ohio view Zanesville is met first and
    Dayton is as frequent; the metric shows Dayton.  Likewise Rain is met
    before Clear, and Clear is shown. *)
Lemma modal_city_is_not_the_first_encountered :
  Milestone4.key_metrics ohio_view =
    Ok (Milestone4.Metrics 2 "Dayton" (Some (Qmake 6 2)) (Some "Clear")) ∧
  spec_first_encountered_mode (Milestone4.City <$> ohio_view) =
    Some "Zanesville" ∧
  spec_first_encountered_mode (Milestone4.Weather_Condition <$> ohio_view) =
    Some "Rain".
Proof. repeat split; eval_fixture; reflexivity. Qed.

Lemma modal_values_are_least_most_frequent_witness :
  ohio_view ≠ [] ∧
  ∃ city avg weather,
    Milestone4.key_metrics ohio_view =
      Ok (Milestone4.Metrics (length ohio_view) city avg weather) ∧
    least_most_frequent city (Milestone4.City <$> ohio_view) ∧
    match weather with
    | Some w =>
        least_most_frequent w (Milestone4.Weather_Condition <$> ohio_view)
    | None => ∀ r, r ∈ ohio_view → Milestone4.Weather_Condition r = None
    end.
Proof.
  assert (Hlen : length ohio_view = 2) by (eval_fixture; reflexivity).
  assert (Hne : ohio_view ≠ []).
  { intros Hnil. rewrite Hnil in Hlen. discriminate Hlen. }
  split; [exact Hne|].
  exact (modal_values_are_least_most_frequent csv "OH" [] 0 23 [] Hne).
Defined.

(** C9 refuted as stated: the range from 5 down to 3 is accepted, and the
    step ends with an empty view, not with an error. *)
Lemma crossed_hour_range_is_not_rejected :
  (3 < 5)%Z ∧
  Milestone4.apply_filters dataset "All" [] 5 3 [] = Ok [] ∧
  ¬ ∃ e, Milestone4.apply_filters dataset "All" [] 5 3 [] = Raise e.
Proof.
  split; [done|]. split; [eval_fixture; reflexivity|].
  intros [e He]. unfold Milestone4.apply_filters in He. discriminate He.
Qed.

Lemma crossed_hour_range_gives_empty_view_witness :
  (0 < 23)%Z ∧
  Milestone4.apply_filters dataset "NY" ["Albany"] 23 0 ["Clear"] = Ok [].
Proof.
  assert (Hcross : (0 < 23)%Z) by lia.
  split; [exact Hcross|].
  exact (crossed_hour_range_gives_empty_view dataset "NY" ["Albany"] 23 0
           ["Clear"] Hcross).
Defined.

Lemma city_options_follow_region_witness :
  "NY" ≠ "All" ∧
  Milestone4.sidebar dataset "NY" = Ok ny_sidebar ∧
  ∃ cities,
    Milestone4.city_options ny_sidebar = Some cities ∧
    ∀ c, c ∈ cities ↔
         ∃ r, r ∈ dataset ∧ Milestone4.State r = Some "NY" ∧
              Milestone4.City r = c.
Proof.
  assert (Hne : "NY" ≠ "All") by discriminate.
  assert (Hsb : Milestone4.sidebar dataset "NY" = Ok ny_sidebar)
    by (eval_fixture; reflexivity).
  split; [exact Hne|]. split; [exact Hsb|].
  exact (city_options_follow_region dataset "NY" ny_sidebar Hne Hsb).
Defined.

Lemma weather_options_ignore_region_witness :
  Milestone4.sidebar dataset "NY" = Ok ny_sidebar ∧
  (∀ w, w ∈ Milestone4.weather_opts ny_sidebar ↔
        ∃ r, r ∈ dataset ∧ Milestone4.Weather_Condition r = Some w) ∧
  (∀ other_state sb', Milestone4.sidebar dataset other_state = Ok sb' →
     Milestone4.weather_opts sb' = Milestone4.weather_opts ny_sidebar).
Proof.
  assert (Hsb : Milestone4.sidebar dataset "NY" = Ok ny_sidebar)
    by (eval_fixture; reflexivity).
  split; [exact Hsb|].
  exact (weather_options_ignore_region dataset "NY" ny_sidebar Hsb).
Defined.

(** The file is read once; it may even be gone at the second call. *)
Lemma cache_hit_returns_same_dataset_without_reading_witness :
  Milestone4.cached_load_data (Ok csv) CacheManager.empty_cache =
    (Ok dataset, warm_cache) ∧
  Milestone4.cached_load_data (Raise FileNotFoundError) warm_cache =
    (Ok dataset, warm_cache) ∧
  CacheManager.load_count () warm_cache = 1.
Proof.
  assert (Hfirst : Milestone4.cached_load_data (Ok csv)
                     CacheManager.empty_cache = (Ok dataset, warm_cache))
    by reflexivity.
  split; [exact Hfirst|].
  destruct (cache_hit_returns_same_dataset_without_reading
              (λ src _, Milestone4.load_data <$> src)
              (Ok csv) (Raise FileNotFoundError) () CacheManager.empty_cache
              warm_cache dataset [] Hfirst) as [Hsecond Hcount].
  split; [exact Hsecond|]. rewrite <- Hcount. reflexivity.
Defined.

End Examples.

(** * Further properties of the scripts *)

(** ** Masks *)

Lemma loc_ext_in {Row} (m1 m2 : Row → bool) (df : list Row) :
  (∀ r, r ∈ df → m1 r = m2 r) → loc m1 df = loc m2 df.
Proof.
  unfold loc. induction df as [|r df IH]; intros Hagree; [done|].
  rewrite !filter_cons, (Hagree r) by by left.
  rewrite IH; [done|]. intros r' Hr'. apply Hagree. by right.
Qed.

Lemma loc_all {Row} (m : Row → bool) (df : list Row) :
  (∀ r, r ∈ df → m r = true) → loc m df = df.
Proof.
  unfold loc. induction df as [|r df IH]; intros Hall; [done|].
  rewrite filter_cons, decide_True by (apply Hall; by left).
  f_equal. apply IH. intros r' Hr'. apply Hall. by right.
Qed.

Lemma loc_loc {Row} (m1 m2 : Row → bool) (df : list Row) :
  loc m2 (loc m1 df) = loc (λ r, m1 r && m2 r) df.
Proof.
  unfold loc. induction df as [|r df IH]; [done|].
  rewrite !filter_cons.
  destruct (m1 r) eqn:H1, (m2 r) eqn:H2; simpl;
    repeat case_decide; try done;
    rewrite ?filter_cons, ?H2; repeat case_decide; try done;
    by rewrite IH.
Qed.

Lemma loc_sublist_mono {Row} (m1 m2 : Row → bool) (df : list Row) :
  (∀ r, r ∈ df → m1 r = true → m2 r = true) →
  loc m1 df `sublist_of` loc m2 df.
Proof.
  unfold loc. induction df as [|r df IH]; intros Himp; [done|].
  assert (IH' : filter (λ r, m1 r = true) df `sublist_of`
                filter (λ r, m2 r = true) df).
  { apply IH. intros r' Hr'. apply Himp. by right. }
  rewrite !filter_cons. destruct (m1 r) eqn:H1.
  - rewrite decide_True by done.
    rewrite decide_True by (apply Himp; [by left | done]).
    by apply sublist_skip.
  - rewrite decide_False by done. case_decide; [by apply sublist_cons | done].
Qed.

Section Milestone4_mask.
Context `{Datetime}.
Import Milestone4.

Lemma criteria_mask_true (selected_state : string)
    (selected_city : list string) (min_hour max_hour : Z)
    (selected_weather : list string) (r : Accident) :
  criteria_mask selected_state selected_city min_hour max_hour
    selected_weather r = true ↔
  region_ok selected_state r ∧ locality_ok selected_city r ∧
  hour_ok min_hour max_hour r ∧ weather_ok selected_weather r.
Proof.
  unfold criteria_mask, region_ok, locality_ok, hour_ok, weather_ok.
  rewrite !andb_true_iff, orb_true_iff, bool_decide_eq_true, eq_scalar_true.
  rewrite <- andb_true_iff, hour_mask_true.
  assert (Hcity : match selected_city with
                  | [] => true
                  | _ => isin (City r) selected_city
                  end = true ↔
          selected_city = [] ∨ ∃ c, City r = Some c ∧ c ∈ selected_city).
  { destruct selected_city as [|c0 cs]; [intuition|].
    rewrite isin_true. intuition; discriminate. }
  assert (Hweather : match selected_weather with
                     | [] => true
                     | _ => isin (Weather_Condition r) selected_weather
                     end = true ↔
          selected_weather = [] ∨
          ∃ w, Weather_Condition r = Some w ∧ w ∈ selected_weather).
  { destruct selected_weather as [|w0 ws]; [intuition|].
    rewrite isin_true. intuition; discriminate. }
  rewrite Hcity, Hweather. intuition.
Qed.

Lemma df_filtered_loc (df : list Accident) (selected_state : string)
    (selected_city : list string) (min_hour max_hour : Z)
    (selected_weather : list string) :
  df_filtered df selected_state selected_city min_hour max_hour
    selected_weather =
  loc (criteria_mask selected_state selected_city min_hour max_hour
         selected_weather) df.
Proof.
  unfold df_filtered, criteria_mask. cbv zeta.
  assert (H1 : (if decide (selected_state ≠ "All")
                then loc (λ r, eq_scalar (State r) selected_state) df
                else df) =
               loc (λ r, bool_decide (selected_state = "All")
                         || eq_scalar (State r) selected_state) df).
  { case_decide as Hs.
    - apply loc_ext_in. intros r _. by rewrite bool_decide_eq_false_2.
    - symmetry. apply loc_all. intros r _.
      by rewrite bool_decide_eq_true_2. }
  rewrite H1. clear H1.
  assert (H2 : ∀ d : list Accident,
            match selected_city with
            | [] => d
            | _ => loc (λ r, isin (City r) selected_city) d
            end =
            loc (λ r, match selected_city with
                      | [] => true
                      | _ => isin (City r) selected_city
                      end) d).
  { intros d. destruct selected_city; [|done]. symmetry. by apply loc_all. }
  rewrite H2. clear H2.
  assert (H3 : ∀ d : list Accident,
            match selected_weather with
            | [] => d
            | _ => loc (λ r, isin (Weather_Condition r) selected_weather) d
            end =
            loc (λ r, match selected_weather with
                      | [] => true
                      | _ => isin (Weather_Condition r) selected_weather
                      end) d).
  { intros d. destruct selected_weather; [|done]. symmetry. by apply loc_all. }
  rewrite H3. clear H3.
  rewrite !loc_loc. apply loc_ext_in. intros r _. simpl.
  by rewrite ?andb_assoc.
Qed.

(** X1.  The four filtering steps amount to one pass over the Dataset
    with the conjunction of the four tests: the view is the Dataset, in
    its order, restricted to the rows that pass all of them, so the order
    in which the script applies the steps has no effect on the result. *)
Theorem filters_amount_to_one_conjunctive_mask (df : list Accident)
    (selected_state : string) (selected_city : list string)
    (min_hour max_hour : Z) (selected_weather : list string) :
  df_filtered df selected_state selected_city min_hour max_hour
    selected_weather =
    loc (criteria_mask selected_state selected_city min_hour max_hour
           selected_weather) df ∧
  ∀ r, criteria_mask selected_state selected_city min_hour max_hour
         selected_weather r = true ↔
       region_ok selected_state r ∧ locality_ok selected_city r ∧
       hour_ok min_hour max_hour r ∧ weather_ok selected_weather r.
Proof. split; [apply df_filtered_loc | intros r; apply criteria_mask_true]. Qed.

(** X2.  Loosening the criteria never loses a row: the view for an hour
    range is a sub-sequence of the view for any wider range, and of the
    view that keeps the wider range and drops the state, city and weather
    selections. *)
Theorem wider_criteria_give_a_larger_view (df : list Accident)
    (selected_state : string) (selected_city : list string)
    (min_hour max_hour min_hour' max_hour' : Z)
    (selected_weather : list string) :
  (min_hour' ≤ min_hour)%Z → (max_hour ≤ max_hour')%Z →
  df_filtered df selected_state selected_city min_hour max_hour
    selected_weather
    `sublist_of`
    df_filtered df selected_state selected_city min_hour' max_hour'
      selected_weather ∧
  df_filtered df selected_state selected_city min_hour max_hour
    selected_weather
    `sublist_of` df_filtered df "All" [] min_hour' max_hour' [].
Proof.
  intros Hlo Hhi. rewrite !df_filtered_loc.
  assert (Hhour : ∀ r : Accident,
            hour_ok min_hour max_hour r → hour_ok min_hour' max_hour' r).
  { intros r (h & Hh & Hrange). exists h. split; [done | lia]. }
  split; apply loc_sublist_mono; intros r _; rewrite !criteria_mask_true.
  - intuition.
  - intros (_ & _ & Hh & _). repeat split; [by left | by left | auto | by left].
Qed.

(** X3.  With nothing selected ("All", no city, the full slider range, no
    weather) the view is still not the whole Dataset: provided the hours
    of the Dataset lie between 0 and 23, it is exactly the rows whose hour
    is not null, so a row with an unparsable time is never counted. *)
Theorem default_view_is_the_rows_with_an_hour (df : list Accident) :
  (∀ r h, r ∈ df → Hour r = Some h → (0 ≤ h ≤ 23)%Z) →
  df_filtered df "All" [] 0 23 [] = loc (λ r, negb (is_null (Hour r))) df.
Proof.
  intros Hrange. rewrite df_filtered_loc. apply loc_ext_in. intros r Hr.
  unfold criteria_mask. simpl.
  destruct (Hour r) as [h|] eqn:Hh; simpl; [|done].
  specialize (Hrange r h Hr Hh).
  rewrite andb_true_r. apply andb_true_iff. rewrite !Z.leb_le. lia.
Qed.

End Milestone4_mask.

(** ** More on ingestion *)

Section Ingestion_more.
Context `{Datetime}.

Lemma length_app_load_data (csv : list App.RawRow) :
  length (App.load_data csv) = length (App.dropped csv).
Proof.
  unfold App.load_data. cbv zeta.
  rewrite length_zip_with, to_datetime_length, length_fmap. lia.
Qed.

Lemma take_nrows_idemp {A} (n : nat) (l : list A) : take n (take n l) = take n l.
Proof. by rewrite take_take, Nat.min_id. Qed.

(** X4.  Both scripts read the first [nrows] rows of the file and nothing
    after them: the Dataset of a file is the Dataset of its first [nrows]
    rows, and it has at most [nrows] rows and at most as many as the
    file. *)
Theorem only_the_first_nrows_rows_are_read :
  (∀ csv,
     Milestone4.load_data csv =
       Milestone4.load_data (take Milestone4.nrows csv) ∧
     length (Milestone4.load_data csv) ≤ Milestone4.nrows ∧
     length (Milestone4.load_data csv) ≤ length csv) ∧
  (∀ csv,
     App.load_data csv = App.load_data (take App.nrows csv) ∧
     length (App.load_data csv) ≤ App.nrows ∧
     length (App.load_data csv) ≤ length csv).
Proof.
  split; intros csv.
  - split.
    + unfold Milestone4.load_data, Milestone4.dropped.
      by rewrite take_nrows_idemp.
    + rewrite length_load_data. unfold Milestone4.dropped.
      pose proof (sublist_length _ _
        (dropna_subset_sublist Milestone4.isna
           [Milestone4.City_col; Milestone4.Start_Lat_col;
            Milestone4.Start_Lng_col] (take Milestone4.nrows csv))) as Hlen.
      rewrite length_take in Hlen. lia.
  - split.
    + unfold App.load_data, App.dropped. by rewrite take_nrows_idemp.
    + rewrite length_app_load_data. unfold App.dropped.
      pose proof (sublist_length _ _
        (dropna_subset_sublist App.isna
           [App.Street_col; App.City_col; App.Zipcode_col;
            App.Start_Lat_col; App.Start_Lng_col] (take App.nrows csv)))
        as Hlen.
      rewrite length_take in Hlen. lia.
Qed.

Lemma elem_of_app_dropped_2 (csv : list App.RawRow) (r : App.RawRow) :
  r ∈ take App.nrows csv →
  is_Some (App.raw_Street r) → is_Some (App.raw_City r) →
  is_Some (App.raw_Zipcode r) → is_Some (App.raw_Start_Lat r) →
  is_Some (App.raw_Start_Lng r) →
  r ∈ App.dropped csv.
Proof.
  intros Hr Hst Hc Hz Hlat Hlng. unfold App.dropped.
  apply elem_of_dropna_subset. split; [done|]. intros c Hc'.
  apply is_null_false in Hst, Hc, Hz, Hlat, Hlng.
  repeat (apply elem_of_cons in Hc' as [->|Hc']; [done|]).
  by apply elem_of_nil in Hc'.
Qed.

(** X5.  [dropna] is the only step that removes rows, and it looks at the
    listed columns alone: a row among the first [nrows] whose required
    cells are all present is in the Dataset, with some parsed time,
    whatever its other cells hold (a null state, weather, severity or
    time does not remove it). *)
Theorem complete_rows_are_never_dropped :
  (∀ csv r,
     r ∈ take Milestone4.nrows csv →
     is_Some (Milestone4.raw_City r) →
     is_Some (Milestone4.raw_Start_Lat r) →
     is_Some (Milestone4.raw_Start_Lng r) →
     ∃ t, Milestone4.engineer r t ∈ Milestone4.load_data csv) ∧
  (∀ csv r,
     r ∈ take App.nrows csv →
     is_Some (App.raw_Street r) → is_Some (App.raw_City r) →
     is_Some (App.raw_Zipcode r) → is_Some (App.raw_Start_Lat r) →
     is_Some (App.raw_Start_Lng r) →
     ∃ t, App.engineer r t ∈ App.load_data csv).
Proof.
  split.
  - intros csv r Hr Hc Hlat Hlng.
    assert (Hd : r ∈ Milestone4.dropped csv) by by apply elem_of_dropped.
    apply list_elem_of_lookup in Hd as [i Hi].
    destruct (lookup_lt_is_Some_2
      (to_datetime (Milestone4.raw_Start_Time <$> Milestone4.dropped csv)) i)
      as [t Ht].
    { rewrite to_datetime_length, length_fmap. by eapply lookup_lt_Some. }
    exists t. apply list_elem_of_lookup. exists i.
    rewrite lookup_load_data, Hi, Ht. done.
  - intros csv r Hr Hst Hc Hz Hlat Hlng.
    assert (Hd : r ∈ App.dropped csv) by by apply elem_of_app_dropped_2.
    apply list_elem_of_lookup in Hd as [i Hi].
    destruct (lookup_lt_is_Some_2
      (to_datetime (App.raw_Start_Time <$> App.dropped csv)) i) as [t Ht].
    { rewrite to_datetime_length, length_fmap. by eapply lookup_lt_Some. }
    exists t. apply list_elem_of_lookup. exists i.
    unfold App.load_data. cbv zeta. rewrite lookup_zip_with, Hi, Ht. done.
Qed.

(** X6.  A filtered view of a loaded Dataset has no gap in the columns
    the page draws from: every row of it has a parsed time, an hour, a
    date, a weekday, a city and both coordinates. *)
Theorem filtered_rows_have_time_and_place (csv : list Milestone4.RawRow)
    (selected_state : string) (selected_city : list string)
    (min_hour max_hour : Z) (selected_weather : list string)
    (r : Milestone4.Accident) :
  r ∈ Milestone4.df_filtered (Milestone4.load_data csv) selected_state
        selected_city min_hour max_hour selected_weather →
  is_Some (Milestone4.Start_Time r) ∧ is_Some (Milestone4.Hour r) ∧
  is_Some (Milestone4.Date r) ∧ is_Some (Milestone4.Weekday r) ∧
  is_Some (Milestone4.City r) ∧ is_Some (Milestone4.Start_Lat r) ∧
  is_Some (Milestone4.Start_Lng r).
Proof.
  intros Hr. apply elem_of_df_filtered in Hr as (Hr & _ & _ & Hh & _).
  destruct Hh as (h & Hh & _).
  apply elem_of_load_data in Hr as (raw & Hraw & Hr).
  apply elem_of_dropped in Hraw as (_ & Hc & Hlat & Hlng).
  rewrite Hr in Hh |- *. simpl in *.
  destruct (Milestone4.Start_Time r) as [t|]; [|discriminate Hh].
  simpl. eauto 10.
Qed.

End Ingestion_more.

(** ** More on the sidebar *)

Lemma sorted_Raise_iff (xs : list (option string)) (e : exn) :
  sorted xs = Raise e ↔ e = TypeError ∧ None ∈ xs ∧ ∃ s, Some s ∈ xs.
Proof.
  unfold sorted. destruct (dropna xs) as [|s strs] eqn:Hd.
  - split; [done|]. intros (_ & _ & s & Hs).
    apply elem_of_dropna in Hs. rewrite Hd in Hs. by apply elem_of_nil in Hs.
  - case_decide as Hnone.
    + split; [intros [= <-] | by intros [-> _]].
      repeat split; [done|]. exists s. apply elem_of_dropna.
      rewrite Hd. by left.
    + split; [done|]. by intros (_ & Hn & _).
Qed.

Lemma NoDup_dropna {A} (s : list (option A)) : NoDup s → NoDup (dropna s).
Proof.
  induction 1 as [|x s Hx Hs IH]; [constructor|].
  destruct x as [a|].
  - change (NoDup (a :: dropna s)).
    constructor; [by rewrite elem_of_dropna | done].
  - exact IH.
Qed.

(** A column without null cell sorts to its distinct values in ascending
    order. *)
Lemma sorted_unique_no_null (col : list (option string)) :
  None ∉ col →
  ∃ strs, sorted (unique col) = Ok (Some <$> strs) ∧
          Sorted str_le strs ∧ NoDup strs ∧
          ∀ x, x ∈ strs ↔ Some x ∈ col.
Proof.
  intros Hnone.
  destruct (sorted_no_null (unique col)) as (strs & Hs & Hsorted & Hperm).
  { by rewrite elem_of_unique. }
  exists strs. repeat split; try done.
  - rewrite Hperm. apply NoDup_dropna, NoDup_unique.
  - rewrite Hperm, elem_of_dropna, elem_of_unique. done.
  - rewrite Hperm, elem_of_dropna, elem_of_unique. done.
Qed.

Section Sidebar_more.
Context `{Datetime}.
Import Milestone4.

(** X7.  A row without state that sits in the Dataset beside a row with
    one makes the state selector fail: [sorted] meets a NaN among the
    strings and raises TypeError, so the sidebar is not drawn and the run
    ends there, whatever is selected.  app.py builds its selector the
    same way. *)
Theorem null_state_breaks_the_state_selector :
  (∀ df : list Accident,
     (∃ r, r ∈ df ∧ State r = None) →
     (∃ r, r ∈ df ∧ is_Some (State r)) →
     state_list df = Raise TypeError ∧
     ∀ selected_state selected_city min_hour max_hour selected_weather rng,
       sidebar df selected_state = Raise TypeError ∧
       run df selected_state selected_city min_hour max_hour
         selected_weather rng = Raise TypeError) ∧
  (∀ df : list App.Accident,
     (∃ r, r ∈ df ∧ App.State r = None) →
     (∃ r, r ∈ df ∧ is_Some (App.State r)) →
     App.state_list df = Raise TypeError).
Proof.
  split.
  - intros df (r0 & Hr0 & Hnull) (r1 & Hr1 & [s1 Hs1]).
    assert (Hraise : state_list df = Raise TypeError).
    { apply sorted_Raise_iff. split; [done|]. split.
      - rewrite elem_of_unique, list_elem_of_fmap. by exists r0.
      - exists s1. rewrite elem_of_unique, list_elem_of_fmap. by exists r1. }
    split; [done|]. intros.
    unfold run, sidebar. by rewrite Hraise.
  - intros df (r0 & Hr0 & Hnull) (r1 & Hr1 & [s1 Hs1]).
    apply sorted_Raise_iff. split; [done|]. split.
    + rewrite elem_of_unique, list_elem_of_fmap. by exists r0.
    + exists s1. rewrite elem_of_unique, list_elem_of_fmap. by exists r1.
Qed.

Lemma city_options_follow_total (csv : list RawRow) (selected_state : string) :
  ∃ cities, city_list (load_data csv) selected_state = Ok cities.
Proof.
  destruct (city_list_loaded csv selected_state) as (cities & Hc & _).
  by eexists.
Qed.

(** X8.  On a loaded Dataset the city options never fail, and they come
    sorted in ascending string order without duplicates. *)
Theorem city_options_are_sorted_and_distinct (csv : list RawRow)
    (selected_state : string) :
  ∃ cities,
    city_list (load_data csv) selected_state = Ok (Some <$> cities) ∧
    Sorted str_le cities ∧ NoDup cities.
Proof.
  unfold city_list.
  destruct (sorted_unique_no_null
    (City <$> loc (λ r, eq_scalar (State r) selected_state) (load_data csv)))
    as (cities & Hs & Hsorted & Hnodup & _).
  - rewrite list_elem_of_fmap. intros (r & Hnull & Hr).
    apply elem_of_loc in Hr as [_ Hr]. apply load_data_city in Hr as [c Hc].
    congruence.
  - by exists cities.
Qed.

(** X9.  When every state cell of a loaded Dataset is present, the
    sidebar is drawn for every selection: the state options are "All"
    followed by the distinct states in ascending order, and with "All"
    selected no city widget is drawn. *)
Theorem sidebar_is_drawn_when_no_state_is_null (csv : list RawRow)
    (selected_state : string) :
  (∀ r, r ∈ load_data csv → is_Some (State r)) →
  ∃ sb states,
    sidebar (load_data csv) selected_state = Ok sb ∧
    state_options sb = Some "All" :: (Some <$> states) ∧
    Sorted str_le states ∧ NoDup states ∧
    (∀ x, x ∈ states ↔ ∃ r, r ∈ load_data csv ∧ State r = Some x) ∧
    (selected_state = "All" → city_options sb = None).
Proof.
  intros Hstates.
  destruct (sorted_unique_no_null (State <$> load_data csv))
    as (states & Hs & Hsorted & Hnodup & Hmem).
  { rewrite list_elem_of_fmap. intros (r & Hnull & Hr).
    destruct (Hstates r Hr) as [s Hsome]. congruence. }
  destruct (city_options_follow_total csv selected_state) as (cities & Hc).
  unfold sidebar, state_list. rewrite Hs. simpl. case_decide as Hsel.
  - rewrite Hc. simpl. eexists _, states. split; [done|]. simpl.
    repeat split; try done.
    + intros Hx. apply Hmem, list_elem_of_fmap in Hx as (r & ? & ?).
      by exists r.
    + intros (r & Hr & Hx). apply Hmem, list_elem_of_fmap. by exists r.
  - eexists _, states. split; [done|]. simpl.
    repeat split; try done.
    + intros Hx. apply Hmem, list_elem_of_fmap in Hx as (r & ? & ?).
      by exists r.
    + intros (r & Hr & Hx). apply Hmem, list_elem_of_fmap. by exists r.
Qed.

End Sidebar_more.

(** ** Selecting every option *)

Section Select_all.
Context `{Datetime}.
Import Milestone4.

Lemma isin_weather_options (df : list Accident) (r : Accident) :
  r ∈ df →
  isin (Weather_Condition r) (weather_options df) =
  negb (is_null (Weather_Condition r)).
Proof.
  intros Hr. destruct (Weather_Condition r) as [w|] eqn:Hw; simpl; [|done].
  apply bool_decide_eq_true_2, elem_of_weather_options. by exists r.
Qed.

(** X10.  An empty weather selection and a full one are not the same
    thing: with no weather selected the rows with a null weather stay,
    while selecting every offered weather keeps exactly the rows of that
    view whose weather is not null. *)
Theorem selecting_every_weather_drops_null_weather (df : list Accident)
    (selected_state : string) (selected_city : list string)
    (min_hour max_hour : Z) :
  weather_options df ≠ [] →
  df_filtered df selected_state selected_city min_hour max_hour
    (weather_options df) =
  loc (λ r, negb (is_null (Weather_Condition r)))
    (df_filtered df selected_state selected_city min_hour max_hour []).
Proof.
  intros Hne. rewrite !df_filtered_loc, loc_loc. apply loc_ext_in.
  intros r Hr. unfold criteria_mask.
  rewrite <- (isin_weather_options df r Hr).
  destruct (weather_options df) as [|w0 ws]; [done|].
  by rewrite andb_true_r.
Qed.

Lemma elem_of_city_list (df : list Accident) (selected_state : string)
    (cities : list string) (c : string) :
  city_list df selected_state = Ok (Some <$> cities) →
  c ∈ cities ↔ ∃ r, r ∈ df ∧ State r = Some selected_state ∧ City r = Some c.
Proof.
  intros Hlist. unfold city_list in Hlist.
  pose proof (sorted_Ok_elem_of _ _ (Some c) Hlist) as Hmem.
  rewrite elem_of_unique, !list_elem_of_fmap in Hmem. split.
  - intros Hc. destruct (proj1 Hmem) as (r & Hcity & Hr); [by exists c|].
    apply elem_of_loc in Hr as [Hs Hr]. apply eq_scalar_true in Hs.
    by exists r.
  - intros (r & Hr & Hs & Hcity).
    destruct (proj2 Hmem) as (c' & [= <-] & Hc'); [|done].
    exists r. split; [done|]. apply elem_of_loc. split; [|done].
    by apply eq_scalar_true.
Qed.

(** X11.  For a loaded Dataset and a selected state, ticking every city
    that the sidebar offers gives the same view as ticking none: every
    row of the state has a city, and that city is among the options. *)
Theorem selecting_every_city_changes_nothing (csv : list RawRow)
    (selected_state : string) (cities : list string)
    (min_hour max_hour : Z) (selected_weather : list string) :
  selected_state ≠ "All" →
  city_list (load_data csv) selected_state = Ok (Some <$> cities) →
  df_filtered (load_data csv) selected_state cities min_hour max_hour
    selected_weather =
  df_filtered (load_data csv) selected_state [] min_hour max_hour
    selected_weather.
Proof.
  intros Hsel Hlist. rewrite !df_filtered_loc. apply loc_ext_in.
  intros r Hr. unfold criteria_mask.
  rewrite bool_decide_eq_false_2 by done. simpl.
  destruct (eq_scalar (State r) selected_state) eqn:Hs; [|done]. simpl.
  destruct cities as [|c0 cs] eqn:Hcs; [done|]. rewrite <- Hcs in *.
  apply eq_scalar_true in Hs.
  destruct (load_data_city csv r Hr) as [c Hc].
  assert (Hin : c ∈ cities).
  { apply (elem_of_city_list _ _ _ _ Hlist). by exists r. }
  rewrite Hc. simpl. by rewrite bool_decide_eq_true_2.
Qed.

End Select_all.

(** ** app.py: filter and metrics *)

Section App_more.
Context `{Datetime}.
Import App.

Lemma elem_of_app_df_filtered (df : list Accident) (selected_state : string)
    (r : Accident) :
  r ∈ df_filtered df selected_state ↔
  r ∈ df ∧ (selected_state = "All" ∨ State r = Some selected_state).
Proof.
  unfold df_filtered. case_decide as Hs.
  - rewrite elem_of_loc, eq_scalar_true. intuition.
  - intuition.
Qed.

Lemma app_load_data_city (csv : list RawRow) (a : Accident) :
  a ∈ load_data csv → is_Some (City a).
Proof.
  intros Ha. apply elem_of_app_load_data in Ha as (r & Hr & ->).
  by apply elem_of_app_dropped in Hr as (_ & _ & Hc & _).
Qed.

(** X12.  The filter of app.py returns a sub-sequence of the frame that
    holds exactly the rows of the selected state (all rows for "All"),
    and a state picked from the options of the selector always has at
    least one row. *)
Theorem app_filter_keeps_the_selected_state (df : list Accident)
    (selected_state : string) :
  df_filtered df selected_state `sublist_of` df ∧
  (∀ r, r ∈ df_filtered df selected_state ↔
        r ∈ df ∧ (selected_state = "All" ∨ State r = Some selected_state)) ∧
  (∀ options, state_list df = Ok options →
              Some selected_state ∈ options →
              df_filtered df selected_state ≠ []).
Proof.
  split; [|split].
  - unfold df_filtered. case_decide; [apply loc_sublist | done].
  - apply elem_of_app_df_filtered.
  - intros options Hopts Hsel Hnil. unfold state_list in Hopts.
    apply (sorted_Ok_elem_of _ _ _ Hopts) in Hsel.
    apply elem_of_unique, list_elem_of_fmap in Hsel as (r & Hs & Hr).
    assert (Hin : r ∈ df_filtered df selected_state).
    { apply elem_of_app_df_filtered. split; [done|]. by right. }
    rewrite Hnil in Hin. by apply elem_of_nil in Hin.
Qed.

(** X13.  On rows of a loaded Dataset the metrics block of app.py fails
    in one case only, the empty view, and then with KeyError; on every
    other view it shows the number of rows, the smallest of the most
    frequent cities and the mean severity. *)
Theorem app_key_metrics_fail_only_on_the_empty_view (csv : list RawRow)
    (view : list Accident) :
  view ⊆ load_data csv →
  (view = [] → key_metrics view = Raise KeyError) ∧
  (view ≠ [] →
   ∃ city,
     key_metrics view =
       Ok {| total := length view;
             most_frequent_city := city;
             avg_severity := mean (Severity <$> view) |} ∧
     least_most_frequent city (City <$> view)).
Proof.
  intros Hsub. split; [by intros ->|]. intros Hne.
  destruct view as [|r view']; [done|].
  destruct (app_load_data_city csv r) as [c Hc]; [apply Hsub; by left|].
  destruct (getitem0_mode (City <$> r :: view')) as (city & Hcity & Hleast).
  { intros Hnil. apply (proj1 (dropna_nil_iff _) Hnil c).
    apply list_elem_of_fmap. exists r. split; [done | by left]. }
  exists city. split; [|done]. unfold key_metrics. by rewrite Hcity.
Qed.

End App_more.

(** ** milestone4.py: metrics, map and the whole run *)

Lemma foldr_add_between (vals : list Z) (lo hi : Z) :
  (∀ v, v ∈ vals → (lo ≤ v ≤ hi)%Z) →
  (lo * Z.of_nat (length vals) ≤ foldr Z.add 0 vals
   ≤ hi * Z.of_nat (length vals))%Z.
Proof.
  induction vals as [|v vals IH]; intros Hall; simpl foldr; simpl length.
  - lia.
  - assert (Hv : (lo ≤ v ≤ hi)%Z) by (apply Hall; by left).
    assert (IH' : (lo * Z.of_nat (length vals) ≤ foldr Z.add 0 vals
                   ≤ hi * Z.of_nat (length vals))%Z).
    { apply IH. intros v' Hv'. apply Hall. by right. }
    rewrite Nat2Z.inj_succ. lia.
Qed.

Lemma mean_between (s : list (option Z)) (lo hi : Z) :
  (∀ v, Some v ∈ s → (lo ≤ v ≤ hi)%Z) →
  match mean s with
  | Some q => Qle (inject_Z lo) q ∧ Qle q (inject_Z hi)
  | None => ∀ v, Some v ∉ s
  end.
Proof.
  intros Hall. unfold mean. destruct (dropna s) as [|v vals] eqn:Hd.
  - by apply dropna_nil_iff.
  - destruct (foldr_add_between (v :: vals) lo hi) as [Hlo Hhi].
    { intros v' Hv'. apply Hall, elem_of_dropna. by rewrite Hd. }
    assert (Hn : length (v :: vals) ≠ 0) by done.
    remember (length (v :: vals)) as n eqn:En.
    remember (foldr Z.add 0%Z (v :: vals)) as sum eqn:Es.
    assert (Hp : Z.pos (Pos.of_nat n) = Z.of_nat n).
    { by rewrite <- positive_nat_Z, Nat2Pos.id. }
    unfold Qle, inject_Z. simpl Qnum. simpl Qden. rewrite Hp. lia.
Qed.

Section Milestone4_more.
Context `{Datetime}.
Import Milestone4.

Lemma key_metrics_Metrics_inv (view : list Accident) (total : nat)
    (city : string) (avg : option float) (weather : option string) :
  key_metrics view = Ok (Metrics total city avg weather) →
  total = length view ∧ avg = mean (Severity <$> view).
Proof.
  destruct view as [|r view']; [done|]. unfold key_metrics.
  destruct (getitem0 (mode (City <$> r :: view'))) as [c|e];
    destruct (mode (Weather_Condition <$> r :: view')) as [|w ws];
    simpl; intros Heq; by inversion Heq.
Qed.

(** X14.  On a filtered view of a loaded Dataset the metrics block of
    milestone4.py never raises: it ends with the "no data" warning for
    the empty view and for that view alone, and with the metrics
    otherwise. *)
Theorem milestone4_key_metrics_never_raise (csv : list RawRow)
    (selected_state : string) (selected_city : list string)
    (min_hour max_hour : Z) (selected_weather : list string) :
  ∃ outcome,
    key_metrics (df_filtered (load_data csv) selected_state selected_city
                   min_hour max_hour selected_weather) = Ok outcome ∧
    (outcome = NoData 0 ↔
     df_filtered (load_data csv) selected_state selected_city min_hour
       max_hour selected_weather = []).
Proof.
  destruct (df_filtered (load_data csv) selected_state selected_city
              min_hour max_hour selected_weather) as [|r view] eqn:Hview.
  - exists (NoData 0). done.
  - destruct (key_metrics_nonempty (r :: view))
      as (city & avg & weather & Hkm & _).
    { exists r. split; [by left|]. apply (load_data_city csv).
      assert (Hr : r ∈ df_filtered (load_data csv) selected_state
                         selected_city min_hour max_hour selected_weather).
      { rewrite Hview. by left. }
      by apply elem_of_df_filtered in Hr as [Hr _]. }
    eexists. split; [exact Hkm|]. split; discriminate.
Qed.

(** X15.  The metrics count every row of the view, and the average
    severity lies between the smallest and the largest severity in it:
    when all severities of the view are within given bounds, so is the
    average; it is NaN only when every severity of the view is null. *)
Theorem average_severity_is_within_the_severities (view : list Accident)
    (total : nat) (city : string) (avg : option float)
    (weather : option string) (lo hi : Z) :
  key_metrics view = Ok (Metrics total city avg weather) →
  (∀ r v, r ∈ view → Severity r = Some v → (lo ≤ v ≤ hi)%Z) →
  total = length view ∧
  match avg with
  | Some q => Qle (inject_Z lo) q ∧ Qle q (inject_Z hi)
  | None => ∀ r, r ∈ view → Severity r = None
  end.
Proof.
  intros Hkm Hall. apply key_metrics_Metrics_inv in Hkm as [-> ->].
  split; [done|].
  pose proof (mean_between (Severity <$> view) lo hi) as Hmean.
  destruct (mean (Severity <$> view)) as [q|].
  - apply Hmean. intros v Hv. apply list_elem_of_fmap in Hv as (r & Hv & Hr).
    by apply (Hall r).
  - intros r Hr. destruct (Severity r) as [v|] eqn:Hv; [|done].
    exfalso. apply (Hmean ltac:(intros v' Hv';
      apply list_elem_of_fmap in Hv' as (r' & Hv' & Hr'); by apply (Hall r')) v).
    apply list_elem_of_fmap. by exists r.
Qed.

(** X16.  A view of at most 1000 rows is put on the map in full: the
    sample is then a rearrangement of the whole view, in both scripts. *)
Theorem small_views_are_mapped_in_full :
  (∀ (view : list Accident) rng,
     length view ≤ 1000 →
     ∃ s, marker_data view rng = Ok s ∧ s ≡ₚ view) ∧
  (∀ (view : list App.Accident) rng,
     length view ≤ 1000 →
     ∃ s, App.sample_map view rng = Ok s ∧ s ≡ₚ view).
Proof.
  split.
  - intros [|r view] rng Hlen; [by exists []|].
    destruct (sample_min 1000 (r :: view) rng) as (s & Hs & Hlen' & Hsub).
    exists s. split; [exact Hs|].
    apply submseteq_length_Permutation; [done | lia].
  - intros [|r view] rng Hlen; [by exists []|].
    destruct (sample_min 1000 (r :: view) rng) as (s & Hs & Hlen' & Hsub).
    exists s. split; [exact Hs|].
    apply submseteq_length_Permutation; [done | lia].
Qed.

(** X17.  When no state and no city cell of the frame is null, a run of
    milestone4.py never raises, whatever the widgets return and whatever
    the random source.  It ends in one of two ways: the view is empty and
    the run stops at the warning with a total of 0; or the page shows the
    metrics of the view with its row count, a map with [min 1000 n]
    markers taken from the view without repetition, and the first
    [min 100 n] rows of the view. *)
Theorem run_ends_with_the_warning_or_the_full_page (df : list Accident)
    (selected_state : string) (selected_city : list string)
    (min_hour max_hour : Z) (selected_weather : list string)
    (rng : list nat) :
  (∀ r, r ∈ df → is_Some (State r) ∧ is_Some (City r)) →
  ∃ page,
    run df selected_state selected_city min_hour max_hour selected_weather
      rng = Ok page ∧
    match page with
    | Stopped total =>
        total = 0 ∧
        df_filtered df selected_state selected_city min_hour max_hour
          selected_weather = []
    | Rendered metrics markers rows =>
        (∃ city avg weather,
           metrics =
             Metrics (length (df_filtered df selected_state selected_city
                                min_hour max_hour selected_weather))
               city avg weather) ∧
        length markers =
          Nat.min 1000 (length (df_filtered df selected_state selected_city
                                  min_hour max_hour selected_weather)) ∧
        markers ⊆+ df_filtered df selected_state selected_city min_hour
                     max_hour selected_weather ∧
        0 < length markers ∧
        rows `prefix_of` df_filtered df selected_state selected_city
                          min_hour max_hour selected_weather ∧
        length rows =
          Nat.min 100 (length (df_filtered df selected_state selected_city
                                 min_hour max_hour selected_weather))
    end.
Proof.
  intros Hdf.
  assert (Hsidebar : ∃ sb, sidebar df selected_state = Ok sb).
  { destruct (sorted_unique_no_null (State <$> df)) as (states & Hs & _).
    { rewrite list_elem_of_fmap. intros (r & Hnull & Hr).
      destruct (Hdf r Hr) as [[s Hsome] _]. congruence. }
    destruct (sorted_unique_no_null
      (City <$> loc (λ r, eq_scalar (State r) selected_state) df))
      as (cities & Hc & _).
    { rewrite list_elem_of_fmap. intros (r & Hnull & Hr).
      apply elem_of_loc in Hr as [_ Hr].
      destruct (Hdf r Hr) as [_ [c Hsome]]. congruence. }
    unfold sidebar, state_list, city_list. rewrite Hs. simpl.
    case_decide; [rewrite Hc|]; simpl; by eexists. }
  destruct Hsidebar as [sb Hsb]. unfold run. rewrite Hsb.
  unfold apply_filters, mbind, Result_bind. cbv beta iota.
  destruct (df_filtered df selected_state selected_city min_hour max_hour
              selected_weather) as [|r view] eqn:Hview.
  - exists (Stopped 0). done.
  - destruct (key_metrics_nonempty (r :: view))
      as (city & avg & weather & Hkm & _).
    { exists r. split; [by left|]. apply Hdf.
      assert (Hr : r ∈ df_filtered df selected_state selected_city min_hour
                         max_hour selected_weather).
      { rewrite Hview. by left. }
      by apply elem_of_df_filtered in Hr as [Hr _]. }
    rewrite Hkm. cbv beta iota.
    destruct (sample_min 1000 (r :: view) rng) as (s & Hs & Hlen & Hsub).
    assert (Hmd : marker_data (r :: view) rng = Ok s) by exact Hs.
    rewrite Hmd. cbv beta iota.
    eexists. split; [reflexivity|]. cbv beta iota.
    split; [by eexists _, _, _|]. split; [done|]. split; [done|].
    split; [simpl in Hlen; lia|]. unfold preview. split.
    + apply prefix_take.
    + rewrite length_take. lia.
Qed.

End Milestone4_more.

(** * Further worked examples *)

Lemma app_take_nrows_short (rows : list App.RawRow) :
  length rows ≤ 1000 → take App.nrows rows = rows.
Proof. intros Hlen. apply take_ge. unfold App.nrows. lia. Qed.

Ltac eval_app_fixture :=
  unfold Fixture.app_dataset, App.load_data, App.dropped;
  rewrite !app_take_nrows_short by (simpl; lia).

Ltac each_row H :=
  repeat (apply elem_of_cons in H as [->|H]);
  [.. | by apply elem_of_nil in H].

Section More_examples.
Import Fixture.
#[local] Existing Instance clock.

Lemma dataset_written_out : dataset = dataset_rows.
Proof. eval_fixture. reflexivity. Qed.

Lemma ohio_view_written_out :
  ohio_view = [accident 2 (Some 8%Z) "Zanesville" "OH" (Some "Rain");
               accident 4 (Some 23%Z) "Dayton" "OH" (Some "Clear")].
Proof. eval_fixture. reflexivity. Qed.

Lemma wider_criteria_give_a_larger_view_witness :
  (0 ≤ 8)%Z ∧ (17 ≤ 23)%Z ∧
  Milestone4.df_filtered dataset "NY" ["Albany"] 8 17 ["Clear"]
    `sublist_of` Milestone4.df_filtered dataset "NY" ["Albany"] 0 23 ["Clear"] ∧
  Milestone4.df_filtered dataset "NY" ["Albany"] 8 17 ["Clear"]
    `sublist_of` Milestone4.df_filtered dataset "All" [] 0 23 [].
Proof.
  assert (Hlo : (0 ≤ 8)%Z) by lia.
  assert (Hhi : (17 ≤ 23)%Z) by lia.
  split; [exact Hlo|]. split; [exact Hhi|].
  exact (wider_criteria_give_a_larger_view dataset "NY" ["Albany"] 8 17 0 23
           ["Clear"] Hlo Hhi).
Defined.

Lemma default_view_is_the_rows_with_an_hour_witness :
  (∀ r h, r ∈ dataset_rows → Milestone4.Hour r = Some h → (0 ≤ h ≤ 23)%Z) ∧
  Milestone4.df_filtered dataset_rows "All" [] 0 23 [] =
    loc (λ r, negb (is_null (Milestone4.Hour r))) dataset_rows.
Proof.
  assert (Hhours : ∀ r h, r ∈ dataset_rows → Milestone4.Hour r = Some h →
                          (0 ≤ h ≤ 23)%Z).
  { intros r h Hr Hh. unfold dataset_rows in Hr.
    each_row Hr; simpl in Hh; try discriminate Hh;
      injection Hh as <-; lia. }
  split; [exact Hhours|].
  exact (default_view_is_the_rows_with_an_hour dataset_rows Hhours).
Defined.

Lemma complete_rows_are_never_dropped_witness :
  poisoned_row ∈ take Milestone4.nrows csv ∧
  is_Some (Milestone4.raw_City poisoned_row) ∧
  is_Some (Milestone4.raw_Start_Lat poisoned_row) ∧
  is_Some (Milestone4.raw_Start_Lng poisoned_row) ∧
  ∃ t, Milestone4.engineer poisoned_row t ∈ Milestone4.load_data csv.
Proof.
  assert (Hin : poisoned_row ∈ take Milestone4.nrows csv).
  { rewrite take_nrows_short by (simpl; lia).
    apply list_elem_of_lookup_2 with 2. reflexivity. }
  assert (Hc : is_Some (Milestone4.raw_City poisoned_row)) by by eexists.
  assert (Hlat : is_Some (Milestone4.raw_Start_Lat poisoned_row))
    by by eexists.
  assert (Hlng : is_Some (Milestone4.raw_Start_Lng poisoned_row))
    by by eexists.
  split; [exact Hin|]. split; [exact Hc|]. split; [exact Hlat|].
  split; [exact Hlng|].
  exact (proj1 complete_rows_are_never_dropped csv poisoned_row Hin Hc Hlat
           Hlng).
Defined.

Lemma filtered_rows_have_time_and_place_witness :
  first_accident ∈
    Milestone4.df_filtered (Milestone4.load_data csv) "OH" [] 0 23 [] ∧
  is_Some (Milestone4.Start_Time first_accident) ∧
  is_Some (Milestone4.Hour first_accident) ∧
  is_Some (Milestone4.Date first_accident) ∧
  is_Some (Milestone4.Weekday first_accident) ∧
  is_Some (Milestone4.City first_accident) ∧
  is_Some (Milestone4.Start_Lat first_accident) ∧
  is_Some (Milestone4.Start_Lng first_accident).
Proof.
  assert (Hin : first_accident ∈
            Milestone4.df_filtered (Milestone4.load_data csv) "OH" [] 0 23 []).
  { apply list_elem_of_lookup_2 with 0. eval_fixture. reflexivity. }
  split; [exact Hin|].
  exact (filtered_rows_have_time_and_place csv "OH" [] 0 23 [] first_accident
           Hin).
Defined.

Lemma null_state_breaks_the_state_selector_witness :
  (∃ r, r ∈ [stateless_accident; first_accident] ∧
        Milestone4.State r = None) ∧
  (∃ r, r ∈ [stateless_accident; first_accident] ∧
        is_Some (Milestone4.State r)) ∧
  Milestone4.state_list [stateless_accident; first_accident] =
    Raise TypeError ∧
  ∀ selected_state selected_city min_hour max_hour selected_weather rng,
    Milestone4.sidebar [stateless_accident; first_accident] selected_state =
      Raise TypeError ∧
    Milestone4.run [stateless_accident; first_accident] selected_state
      selected_city min_hour max_hour selected_weather rng = Raise TypeError.
Proof.
  assert (Hnull : ∃ r, r ∈ [stateless_accident; first_accident] ∧
                       Milestone4.State r = None).
  { exists stateless_accident. split; [by left | reflexivity]. }
  assert (Hsome : ∃ r, r ∈ [stateless_accident; first_accident] ∧
                       is_Some (Milestone4.State r)).
  { exists first_accident. split; [by right; left | by eexists]. }
  split; [exact Hnull|]. split; [exact Hsome|].
  exact (proj1 null_state_breaks_the_state_selector
           [stateless_accident; first_accident] Hnull Hsome).
Defined.

Lemma sidebar_is_drawn_when_no_state_is_null_witness :
  (∀ r, r ∈ Milestone4.load_data csv → is_Some (Milestone4.State r)) ∧
  ∃ sb states,
    Milestone4.sidebar (Milestone4.load_data csv) "All" = Ok sb ∧
    Milestone4.state_options sb = Some "All" :: (Some <$> states) ∧
    Sorted str_le states ∧ NoDup states ∧
    (∀ x, x ∈ states ↔
          ∃ r, r ∈ Milestone4.load_data csv ∧ Milestone4.State r = Some x) ∧
    ("All" = "All" → Milestone4.city_options sb = None).
Proof.
  assert (Hstates : ∀ r, r ∈ Milestone4.load_data csv →
                         is_Some (Milestone4.State r)).
  { intros r Hr. change (r ∈ dataset) in Hr.
    rewrite dataset_written_out in Hr. unfold dataset_rows in Hr.
    each_row Hr; by eexists. }
  split; [exact Hstates|].
  exact (sidebar_is_drawn_when_no_state_is_null csv "All" Hstates).
Defined.

Lemma selecting_every_weather_drops_null_weather_witness :
  Milestone4.weather_options dataset ≠ [] ∧
  Milestone4.df_filtered dataset "NY" [] 0 23
    (Milestone4.weather_options dataset) =
  loc (λ r, negb (is_null (Milestone4.Weather_Condition r)))
    (Milestone4.df_filtered dataset "NY" [] 0 23 []).
Proof.
  assert (Hopts : Milestone4.weather_options dataset = ["Rain"; "Clear"])
    by (eval_fixture; reflexivity).
  assert (Hne : Milestone4.weather_options dataset ≠ []).
  { rewrite Hopts. discriminate. }
  split; [exact Hne|].
  exact (selecting_every_weather_drops_null_weather dataset "NY" [] 0 23 Hne).
Defined.

Lemma selecting_every_city_changes_nothing_witness :
  "NY" ≠ "All" ∧
  Milestone4.city_list (Milestone4.load_data csv) "NY" =
    Ok (Some <$> ["Albany"; "Buffalo"]) ∧
  Milestone4.df_filtered (Milestone4.load_data csv) "NY"
    ["Albany"; "Buffalo"] 0 23 [] =
  Milestone4.df_filtered (Milestone4.load_data csv) "NY" [] 0 23 [].
Proof.
  assert (Hne : "NY" ≠ "All") by discriminate.
  assert (Hlist : Milestone4.city_list (Milestone4.load_data csv) "NY" =
                  Ok (Some <$> ["Albany"; "Buffalo"]))
    by (eval_fixture; reflexivity).
  split; [exact Hne|]. split; [exact Hlist|].
  exact (selecting_every_city_changes_nothing csv "NY" ["Albany"; "Buffalo"]
           0 23 [] Hne Hlist).
Defined.

Lemma app_filter_keeps_the_selected_state_witness :
  App.state_list app_dataset = Ok [Some "NY"; Some "OH"] ∧
  Some "NY" ∈ [Some "NY"; Some "OH"] ∧
  App.df_filtered app_dataset "NY" ≠ [].
Proof.
  assert (Hopts : App.state_list app_dataset = Ok [Some "NY"; Some "OH"])
    by (eval_app_fixture; reflexivity).
  assert (Hsel : Some "NY" ∈ [Some "NY"; Some "OH"]) by by left.
  split; [exact Hopts|]. split; [exact Hsel|].
  exact (proj2 (proj2 (app_filter_keeps_the_selected_state app_dataset "NY"))
           [Some "NY"; Some "OH"] Hopts Hsel).
Defined.

Lemma app_key_metrics_fail_only_on_the_empty_view_witness :
  app_dataset ⊆ App.load_data app_csv ∧
  (app_dataset = [] → App.key_metrics app_dataset = Raise KeyError) ∧
  (app_dataset ≠ [] →
   ∃ city,
     App.key_metrics app_dataset =
       Ok {| App.total := length app_dataset;
             App.most_frequent_city := city;
             App.avg_severity := mean (App.Severity <$> app_dataset) |} ∧
     least_most_frequent city (App.City <$> app_dataset)).
Proof.
  assert (Hsub : app_dataset ⊆ App.load_data app_csv) by done.
  split; [exact Hsub|].
  exact (app_key_metrics_fail_only_on_the_empty_view app_csv app_dataset Hsub).
Defined.

Lemma average_severity_is_within_the_severities_witness :
  Milestone4.key_metrics ohio_view =
    Ok (Milestone4.Metrics 2 "Dayton" (Some (Qmake 6 2)) (Some "Clear")) ∧
  (∀ r v, r ∈ ohio_view → Milestone4.Severity r = Some v → (1 ≤ v ≤ 4)%Z) ∧
  2 = length ohio_view ∧
  Qle (inject_Z 1) (Qmake 6 2) ∧ Qle (Qmake 6 2) (inject_Z 4).
Proof.
  assert (Hkm : Milestone4.key_metrics ohio_view =
                Ok (Milestone4.Metrics 2 "Dayton" (Some (Qmake 6 2))
                      (Some "Clear"))) by (eval_fixture; reflexivity).
  assert (Hsev : ∀ r v, r ∈ ohio_view → Milestone4.Severity r = Some v →
                        (1 ≤ v ≤ 4)%Z).
  { intros r v Hr Hv. rewrite ohio_view_written_out in Hr.
    each_row Hr; injection Hv as <-; lia. }
  split; [exact Hkm|]. split; [exact Hsev|].
  exact (average_severity_is_within_the_severities ohio_view 2 "Dayton"
           (Some (Qmake 6 2)) (Some "Clear") 1 4 Hkm Hsev).
Defined.

Lemma small_views_are_mapped_in_full_witness :
  length dataset_rows ≤ 1000 ∧
  ∃ s, Milestone4.marker_data dataset_rows [7; 2; 9] = Ok s ∧
       s ≡ₚ dataset_rows.
Proof.
  assert (Hlen : length dataset_rows ≤ 1000) by (simpl; lia).
  split; [exact Hlen|].
  exact (proj1 small_views_are_mapped_in_full dataset_rows [7; 2; 9] Hlen).
Defined.

Lemma run_ends_with_the_warning_or_the_full_page_witness :
  (∀ r, r ∈ dataset_rows →
        is_Some (Milestone4.State r) ∧ is_Some (Milestone4.City r)) ∧
  ∃ page,
    Milestone4.run dataset_rows "OH" [] 0 23 ["Clear"] [7; 2; 9] = Ok page ∧
    match page with
    | Milestone4.Stopped total =>
        total = 0 ∧
        Milestone4.df_filtered dataset_rows "OH" [] 0 23 ["Clear"] = []
    | Milestone4.Rendered metrics markers rows =>
        (∃ city avg weather,
           metrics =
             Milestone4.Metrics
               (length (Milestone4.df_filtered dataset_rows "OH" [] 0 23
                          ["Clear"])) city avg weather) ∧
        length markers =
          Nat.min 1000
            (length (Milestone4.df_filtered dataset_rows "OH" [] 0 23
                       ["Clear"])) ∧
        markers ⊆+ Milestone4.df_filtered dataset_rows "OH" [] 0 23
                     ["Clear"] ∧
        0 < length markers ∧
        rows `prefix_of` Milestone4.df_filtered dataset_rows "OH" [] 0 23
                          ["Clear"] ∧
        length rows =
          Nat.min 100
            (length (Milestone4.df_filtered dataset_rows "OH" [] 0 23
                       ["Clear"]))
    end.
Proof.
  assert (Hdf : ∀ r, r ∈ dataset_rows →
                     is_Some (Milestone4.State r) ∧
                     is_Some (Milestone4.City r)).
  { intros r Hr. unfold dataset_rows in Hr.
    each_row Hr; split; by eexists. }
  split; [exact Hdf|].
  exact (run_ends_with_the_warning_or_the_full_page dataset_rows "OH" [] 0 23
           ["Clear"] [7; 2; 9] Hdf).
Defined.

End More_examples.
